(** * QClickEdit: click-to-edit widgets over PySide2

    A shallow embedding of [QClickEdit.py].  The Python objects live in a
    heap indexed by object identity; the two class attributes [_registry]
    and [_top_widgets_modified] are fields of the world; every method is a
    computation in a state-and-exception monad in which, as in Python, the
    mutations made before an exception is raised stay in place.

    The PySide2 controls themselves are not part of the module.  Their
    documented behaviour (value clamping of a spin box, [findText] and
    [setCurrentIndex] of a combo box, ...) is given in the section
    "Host controls" below; the rendering of a [QTime] under a format
    string and the mouse-press handlers that top-level widgets had before
    they were patched are parameters of the development.

    Left out: layout, margins, style sheets, focus policies and widths,
    which no method reads back; and the [destroyed] signal, which removes
    a widget from the registry when the host deletes it. *)

From Stdlib Require Import ZArith String Ascii List Bool Lia.
From stdpp Require Import base option list gmap pretty.

Set Warnings "-register-all".

Open Scope string_scope.
Open Scope Z_scope.

(** ** Python values *)

(** [datetime.time]: hour, minute, second, microsecond. *)
Record pytime := PyTime { t_hour : Z; t_minute : Z; t_second : Z; t_microsecond : Z }.

(** [QTime] is a number of milliseconds since midnight; the null time is
    [-1], as in Qt. *)
Record QTime := MkQTime { mds : Z }.

Definition NullTime : Z := -1.

Definition QTime_isValid (t : QTime) : bool :=
  (0 <=? mds t) && (mds t <? 86400000).

(** [QTime(h, m, s, ms)]. *)
Definition QTime_hms (h m s ms : Z) : QTime :=
  if (0 <=? h) && (h <? 24) && (0 <=? m) && (m <? 60) &&
     (0 <=? s) && (s <? 60) && (0 <=? ms) && (ms <? 1000)
  then MkQTime ((h * 3600 + m * 60 + s) * 1000 + ms)
  else MkQTime NullTime.

(** [QTime(value)] for a [datetime.time] value. *)
Definition QTime_of_pytime (t : pytime) : QTime :=
  QTime_hms (t_hour t) (t_minute t) (t_second t) (t_microsecond t / 1000).

Definition QTime_hour (t : QTime) : Z :=
  if QTime_isValid t then mds t / 3600000 else -1.
Definition QTime_minute (t : QTime) : Z :=
  if QTime_isValid t then (mds t mod 3600000) / 60000 else -1.
Definition QTime_second (t : QTime) : Z :=
  if QTime_isValid t then (mds t / 1000) mod 60 else -1.
Definition QTime_msec (t : QTime) : Z :=
  if QTime_isValid t then mds t mod 1000 else -1.

(** The values that reach the module: strings, integers, booleans, [None],
    lists, class objects such as [list], [datetime.time] and [QTime]. *)
Inductive pyval :=
| VStr (s : string)
| VInt (z : Z)
| VBool (b : bool)
| VNone
| VList (l : list pyval)
| VClass (name : string)
| VTime (t : pytime)
| VQTime (t : QTime).

Definition isinstance_str (v : pyval) : bool :=
  match v with VStr _ => true | _ => false end.

Definition is_False (v : pyval) : bool :=
  match v with VBool false => true | _ => false end.

(** Truth value of an object, as tested by [if v:]. *)
Definition truthy (v : pyval) : bool :=
  match v with
  | VStr s => negb (String.eqb s "")
  | VInt z => negb (z =? 0)
  | VBool b => b
  | VNone => false
  | VList l => match l with [] => false | _ => true end
  | VClass _ => true
  | VTime _ => true
  | VQTime t => negb (mds t =? NullTime)
  end.

(** *** [str()] and [repr()] *)

Definition dquote : ascii := ascii_of_nat 34.
Definition squote : ascii := ascii_of_nat 39.
Definition backslash : ascii := ascii_of_nat 92.

Fixpoint has_char (c : ascii) (s : string) : bool :=
  match s with
  | EmptyString => false
  | String d r => Ascii.eqb c d || has_char c r
  end.

Definition hex_digit (n : nat) : ascii :=
  ascii_of_nat (if (n <? 10)%nat then 48 + n else 87 + n).

Definition escape_char (q c : ascii) : string :=
  let n := nat_of_ascii c in
  if Ascii.eqb c backslash then String backslash (String backslash EmptyString)
  else if Ascii.eqb c q then String backslash (String q EmptyString)
  else if (n =? 10)%nat then String backslash "n"
  else if (n =? 13)%nat then String backslash "r"
  else if (n =? 9)%nat then String backslash "t"
  else if (n <? 32)%nat || (n =? 127)%nat then
    String backslash (String "x" (String (hex_digit (n / 16)) (String (hex_digit (n mod 16)) EmptyString)))
  else String c EmptyString.

Fixpoint escape (q : ascii) (s : string) : string :=
  match s with
  | EmptyString => EmptyString
  | String c r => escape_char q c ++ escape q r
  end.

(** [repr] of a string: single quotes, unless the string holds a single
    quote and no double quote. *)
Definition repr_str (s : string) : string :=
  let q := if has_char squote s && negb (has_char dquote s) then dquote else squote in
  String q (escape q s ++ String q EmptyString).

Definition pad (width : nat) (z : Z) : string :=
  let d := pretty z in
  String.concat "" (repeat "0" (width - String.length d)) ++ d.

Definition str_pytime (t : pytime) : string :=
  pad 2 (t_hour t) ++ ":" ++ pad 2 (t_minute t) ++ ":" ++ pad 2 (t_second t) ++
  (if t_microsecond t =? 0 then "" else "." ++ pad 6 (t_microsecond t)).

Definition str_QTime (t : QTime) : string :=
  "PySide2.QtCore.QTime(" ++ pretty (QTime_hour t) ++ ", " ++ pretty (QTime_minute t) ++ ", " ++
  pretty (QTime_second t) ++ ", " ++ pretty (QTime_msec t) ++ ")".

Fixpoint repr (v : pyval) : string :=
  match v with
  | VStr s => repr_str s
  | VInt z => pretty z
  | VBool b => if b then "True" else "False"
  | VNone => "None"
  | VList l => "[" ++ String.concat ", " (map repr l) ++ "]"
  | VClass name => "<class '" ++ name ++ "'>"
  | VTime t =>
      "datetime.time(" ++ pretty (t_hour t) ++
      (if (t_second t =? 0) && (t_microsecond t =? 0)
       then ", " ++ pretty (t_minute t)
       else if t_microsecond t =? 0
       then ", " ++ pretty (t_minute t) ++ ", " ++ pretty (t_second t)
       else ", " ++ pretty (t_minute t) ++ ", " ++ pretty (t_second t) ++ ", " ++
            pretty (t_microsecond t)) ++ ")"
  | VQTime t => str_QTime t
  end.

(** [str(v)]. *)
Definition str (v : pyval) : string :=
  match v with
  | VStr s => s
  | VTime t => str_pytime t
  | _ => repr v
  end.

(** ** Exceptions and the method monad *)

Inductive exn :=
| TypeError (msg : string)
| AttributeError (msg : string)
| IndexError (msg : string)
| OverflowError (msg : string).

Inductive res (A : Type) :=
| Ok (a : A)
| Raise (e : exn).
Arguments Ok {A} a.
Arguments Raise {A} e.

(** ** Host controls

    The PySide2 controls, with the part of their documented behaviour
    that the module relies on. *)

(** [QSpinBox]: the value is kept within [minimum, maximum], 0 and 99
    unless the client changes them. *)
Record SpinBox := MkSpinBox { sb_value : Z; sb_minimum : Z; sb_maximum : Z }.

Definition SpinBox_new : SpinBox := MkSpinBox 0 0 99.

Definition SpinBox_setValue (v : Z) (c : SpinBox) : SpinBox :=
  MkSpinBox (Z.max (sb_minimum c) (Z.min (sb_maximum c) v)) (sb_minimum c) (sb_maximum c).

(** [QLineEdit]: [setText] truncates to [maxLength], 32767 by default. *)
Record LineEdit := MkLineEdit { le_text : string; le_maxLength : Z }.

Definition LineEdit_new : LineEdit := MkLineEdit "" 32767.

Definition LineEdit_setText (s : string) (c : LineEdit) : LineEdit :=
  MkLineEdit (substring 0 (Z.to_nat (le_maxLength c)) s) (le_maxLength c).

(** [QTimeEdit]: [setTime] ignores an invalid time.  The display format
    is the locale's ([None]) until it is set; the time range is the whole
    day. *)
Record TimeEdit := MkTimeEdit { te_time : QTime; te_displayFormat : option string }.

Definition TimeEdit_new : TimeEdit := MkTimeEdit (QTime_hms 0 0 0 0) None.

Definition TimeEdit_setTime (t : QTime) (c : TimeEdit) : TimeEdit :=
  if QTime_isValid t then MkTimeEdit t (te_displayFormat c) else c.

Definition TimeEdit_setDisplayFormat (f : string) (c : TimeEdit) : TimeEdit :=
  MkTimeEdit (te_time c) (Some f).

(** [QComboBox] (not editable): the items and the current index, [-1]
    when nothing is selected. *)
Record ComboBox := MkComboBox { cb_items : list string; cb_currentIndex : Z }.

Definition ComboBox_new : ComboBox := MkComboBox [] (-1).

Fixpoint find_from (i : Z) (s : string) (items : list string) : Z :=
  match items with
  | [] => -1
  | x :: r => if String.eqb x s then i else find_from (i + 1) s r
  end.

(** [findText]: index of the first item equal to [s], [-1] if none. *)
Definition ComboBox_findText (s : string) (c : ComboBox) : Z :=
  find_from 0 s (cb_items c).

(** [setCurrentIndex]: an index out of range clears the selection. *)
Definition ComboBox_setCurrentIndex (i : Z) (c : ComboBox) : ComboBox :=
  if (0 <=? i) && (i <? Z.of_nat (length (cb_items c)))
  then MkComboBox (cb_items c) i
  else MkComboBox (cb_items c) (-1).

Definition ComboBox_currentText (c : ComboBox) : string :=
  if 0 <=? cb_currentIndex c
  then nth (Z.to_nat (cb_currentIndex c)) (cb_items c) ""
  else "".

(** [addItem]: the first item added to an empty box becomes current. *)
Definition ComboBox_addItem (s : string) (c : ComboBox) : ComboBox :=
  MkComboBox (cb_items c ++ [s])%list
             (match cb_items c with [] => 0 | _ => cb_currentIndex c end).

Inductive control :=
| CSpin (c : SpinBox)
| CLine (c : LineEdit)
| CTime (c : TimeEdit)
| CCombo (c : ComboBox).

(** The host classes the module imports as [SpinBox], [LineEdit],
    [TimeEdit] and [ComboBox]; the value of [self.widget_]. *)
Inductive host_class := SpinBox_cls | LineEdit_cls | TimeEdit_cls | ComboBox_cls.

Definition host_new (k : host_class) : control :=
  match k with
  | SpinBox_cls => CSpin SpinBox_new
  | LineEdit_cls => CLine LineEdit_new
  | TimeEdit_cls => CTime TimeEdit_new
  | ComboBox_cls => CCombo ComboBox_new
  end.

(** An input widget: the control, whether it is shown ([isVisible], the
    enclosing window being on screen), whether the pointer is over it
    ([underMouse], maintained by the host from enter and leave events), and
    whether its change signal is connected to [_updateCurrentValue]. *)
Record Input := MkInput {
  in_control : control;
  in_visible : bool;
  in_underMouse : bool;
  in_connected : bool
}.

(** The flat [QPushButton] held in [self.text]. *)
Record Button := MkButton { b_text : string; b_visible : bool }.

(** ** Objects and the world *)

Inductive class := QSpinBox | QLineEdit | QTimeEdit | QComboBox.

(** A [QClickEdit] instance: its class and its attributes, [None] while
    an attribute is not set. *)
Record Obj := MkObj {
  cls : class;
  widget_ : option host_class;
  _current_value : option pyval;
  _display_format : option string;
  suffix : option pyval;
  prefix_label : option string;
  input_widget : option Input;
  text : option Button
}.

Definition Obj_new (c : class) : Obj := MkObj c None None None None None None None.

Definition set_widget_ (k : host_class) (o : Obj) : Obj :=
  MkObj (cls o) (Some k) (_current_value o) (_display_format o) (suffix o)
        (prefix_label o) (input_widget o) (text o).
Definition set_current_value (v : pyval) (o : Obj) : Obj :=
  MkObj (cls o) (widget_ o) (Some v) (_display_format o) (suffix o)
        (prefix_label o) (input_widget o) (text o).
Definition set_display_format (f : string) (o : Obj) : Obj :=
  MkObj (cls o) (widget_ o) (_current_value o) (Some f) (suffix o)
        (prefix_label o) (input_widget o) (text o).
Definition set_suffix (v : pyval) (o : Obj) : Obj :=
  MkObj (cls o) (widget_ o) (_current_value o) (_display_format o) (Some v)
        (prefix_label o) (input_widget o) (text o).
Definition set_prefix_label (s : string) (o : Obj) : Obj :=
  MkObj (cls o) (widget_ o) (_current_value o) (_display_format o) (suffix o)
        (Some s) (input_widget o) (text o).
Definition set_input_widget (i : Input) (o : Obj) : Obj :=
  MkObj (cls o) (widget_ o) (_current_value o) (_display_format o) (suffix o)
        (prefix_label o) (Some i) (text o).
Definition set_text (b : Button) (o : Obj) : Obj :=
  MkObj (cls o) (widget_ o) (_current_value o) (_display_format o) (suffix o)
        (prefix_label o) (input_widget o) (Some b).

(** The value of a top-level widget's [mousePressEvent] attribute: the
    method it had from its class, or the [partial] object that
    [QClickEdit.__init__] stores in its place. *)
Inductive handler :=
| OriginalMPE (tw : nat)
| PartialMPE (self : nat) (parent : nat) (original_mousePressEvent : handler).

Inductive QEvent :=
| MouseButtonPress (x y : Z)
| FocusOut.

(** The world: the heap of [QClickEdit] instances, the two class
    attributes, the host's list of top-level widgets and the
    [mousePressEvent] attributes set on them. *)
Record World := MkWorld {
  heap : gmap nat Obj;
  next_id : nat;
  _registry : list nat;
  _top_widgets_modified : list nat;
  topLevelWidgets : list nat;
  mousePressEvent : gmap nat handler
}.

Definition World_new : World := MkWorld ∅ 0 [] [] [] ∅.

Definition set_heap (h : gmap nat Obj) (w : World) : World :=
  MkWorld h (next_id w) (_registry w) (_top_widgets_modified w) (topLevelWidgets w)
          (mousePressEvent w).
Definition set_next_id (n : nat) (w : World) : World :=
  MkWorld (heap w) n (_registry w) (_top_widgets_modified w) (topLevelWidgets w)
          (mousePressEvent w).
Definition set_registry (r : list nat) (w : World) : World :=
  MkWorld (heap w) (next_id w) r (_top_widgets_modified w) (topLevelWidgets w)
          (mousePressEvent w).
Definition set_top_widgets_modified (m : list nat) (w : World) : World :=
  MkWorld (heap w) (next_id w) (_registry w) m (topLevelWidgets w) (mousePressEvent w).
Definition set_topLevelWidgets (l : list nat) (w : World) : World :=
  MkWorld (heap w) (next_id w) (_registry w) (_top_widgets_modified w) l (mousePressEvent w).
Definition set_mousePressEvent (m : gmap nat handler) (w : World) : World :=
  MkWorld (heap w) (next_id w) (_registry w) (_top_widgets_modified w) (topLevelWidgets w) m.

(** A method: it reads and updates the world and returns or raises. *)
Definition M (A : Type) : Type := World → res A * World.

#[global] Instance M_ret : MRet M := λ A a st, (Ok a, st).
#[global] Instance M_bind : MBind M := λ A B f m st,
  match m st with
  | (Ok a, st') => f a st'
  | (Raise e, st') => (Raise e, st')
  end.

Definition raise {A} (e : exn) : M A := λ st, (Raise e, st).
Definition gets {A} (f : World → A) : M A := λ st, (Ok (f st), st).
Definition modify (f : World → World) : M unit := λ st, (Ok tt, f st).

(** Attribute access on [self]. *)
Definition get_obj (self : nat) : M Obj := λ st,
  match heap st !! self with
  | Some o => (Ok o, st)
  | None => (Raise (AttributeError "no such object"), st)
  end.

Definition update_obj (self : nat) (f : Obj → Obj) : M unit :=
  o ← get_obj self; modify (λ st, set_heap (<[self := f o]> (heap st)) st).

Definition getattr {A} (name : string) (proj : Obj → option A) (self : nat) : M A :=
  o ← get_obj self;
  match proj o with
  | Some a => mret a
  | None => raise (AttributeError ("object has no attribute '" ++ name ++ "'"))
  end.

Definition new (c : class) : M nat := λ st,
  (Ok (next_id st),
   set_next_id (S (next_id st)) (set_heap (<[next_id st := Obj_new c]> (heap st)) st)).

(** Calls on the two sub-widgets of [self]. *)
Definition text_setText (self : nat) (s : string) : M unit :=
  b ← getattr "text" text self;
  update_obj self (set_text (MkButton s (b_visible b))).

Definition text_setVisible (self : nat) (v : bool) : M unit :=
  b ← getattr "text" text self;
  update_obj self (set_text (MkButton (b_text b) v)).

Definition input_setVisible (self : nat) (v : bool) : M unit :=
  i ← getattr "input_widget" input_widget self;
  update_obj self (set_input_widget (MkInput (in_control i) v (in_underMouse i) (in_connected i))).

Definition input_connect (self : nat) : M unit :=
  i ← getattr "input_widget" input_widget self;
  update_obj self (set_input_widget (MkInput (in_control i) (in_visible i) (in_underMouse i) true)).

Definition set_control (self : nat) (c : control) : M unit :=
  i ← getattr "input_widget" input_widget self;
  update_obj self (set_input_widget (MkInput c (in_visible i) (in_underMouse i) (in_connected i))).

(** The change signal of the input widget: the connected slot runs at
    once when the stored value has changed. *)
Definition emit (self : nat) (changed : bool) (slot : M unit) : M unit :=
  i ← getattr "input_widget" input_widget self;
  if changed && in_connected i then slot else mret tt.

Definition get_spin (self : nat) : M SpinBox :=
  i ← getattr "input_widget" input_widget self;
  match in_control i with
  | CSpin c => mret c
  | _ => raise (AttributeError "input_widget is not a QSpinBox")
  end.

Definition get_line (self : nat) : M LineEdit :=
  i ← getattr "input_widget" input_widget self;
  match in_control i with
  | CLine c => mret c
  | _ => raise (AttributeError "input_widget is not a QLineEdit")
  end.

Definition get_time (self : nat) : M TimeEdit :=
  i ← getattr "input_widget" input_widget self;
  match in_control i with
  | CTime c => mret c
  | _ => raise (AttributeError "input_widget is not a QTimeEdit")
  end.

Definition get_combo (self : nat) : M ComboBox :=
  i ← getattr "input_widget" input_widget self;
  match in_control i with
  | CCombo c => mret c
  | _ => raise (AttributeError "input_widget is not a QComboBox")
  end.

(** Conversion of an argument to a C [int] by the binding: integers and
    booleans pass, within 32 bits. *)
Definition as_c_int (v : pyval) : M Z :=
  match v with
  | VInt z =>
      if (-2147483648 <=? z) && (z <=? 2147483647) then mret z
      else raise (OverflowError "Python int too large to convert to C int")
  | VBool b => mret (if b then 1 else 0)
  | _ => raise (TypeError "called with wrong argument types")
  end.

Definition msg_prefix : string :=
  "type_of_field argument is a descriptive prefix and must be a string".
Definition msg_suffix : string := "Suffix must be a string".
Definition msg_time : string :=
  "current_time must be datetime.time or QTime object, or set to False".

Section QClickEdit_module.

(** [QTime.toString(format)], the host's rendering of a time. *)
Variable QTime_toString : QTime → string → string.

(** The [mousePressEvent] method each top-level widget has from its own
    class: client code. *)
Variable class_mousePressEvent : nat → QEvent → M unit.

(** ** class QClickEdit *)

Definition QClickEdit__addSuffix (self : nat) (current_value : pyval) : M string :=
  sfx ← getattr "suffix" suffix self;
  if truthy sfx then
    match sfx with
    | VStr s => mret (str current_value ++ " " ++ s)
    | _ => raise (TypeError "can only concatenate str to str")
    end
  else mret (str current_value).

Definition QClickEdit__showInputField (self : nat) : M unit :=
  text_setVisible self false;;
  input_setVisible self true.

Definition QClickEdit__showText (self : nat) : M unit :=
  input_setVisible self false;;
  text_setVisible self true.

(** The loop of [_freezeInputPrecheck] over the registry. *)
Fixpoint freeze_loop (reg : list nat) : M unit :=
  match reg with
  | [] => mret tt
  | ClickEdit_widget :: rest =>
      i ← getattr "input_widget" input_widget ClickEdit_widget;
      (if in_visible i && negb (in_underMouse i)
       then QClickEdit__showText ClickEdit_widget
       else mret tt);;
      freeze_loop rest
  end.

Definition QClickEdit__freezeInputPrecheck (self : nat) : M unit :=
  reg ← gets _registry;
  freeze_loop reg.

Definition QClickEdit__topWidgetMousePressEvent (self parent : nat)
    (original_mousePressEvent : QEvent → M unit) (event : QEvent) : M unit :=
  original_mousePressEvent event;;
  QClickEdit__freezeInputPrecheck self.

Definition QClickEdit__setToEdit (self : nat) : M unit :=
  QClickEdit__freezeInputPrecheck self;;
  QClickEdit__showInputField self.

(** The input widget is created by [self.widget_()], takes
    [self.focusOutEvent] as its focus-out handler, joins the layout and is
    hidden. *)
Definition QClickEdit__createInputWidget (self : nat) : M unit :=
  k ← getattr "widget_" widget_ self;
  update_obj self (set_input_widget (MkInput (host_new k) true false false));;
  input_setVisible self false.

(** [QWidget.focusOutEvent], which only schedules a repaint. *)
Definition QWidget_focusOutEvent (self : nat) (event : QEvent) : M unit := mret tt.

Definition QClickEdit_focusOutEvent (self : nat) (event : QEvent) : M unit :=
  QWidget_focusOutEvent self event;;
  QClickEdit__freezeInputPrecheck self.

(** ** class QSpinBox *)

Definition QSpinBox__updateCurrentValue (self : nat) : M unit :=
  c ← get_spin self;
  t ← QClickEdit__addSuffix self (VInt (sb_value c));
  text_setText self t.

Definition QSpinBox__createInputWidget (self : nat) : M unit :=
  QClickEdit__createInputWidget self;;
  input_connect self.

Definition QSpinBox_getValue (self : nat) : M pyval :=
  c ← get_spin self;
  mret (VInt (sb_value c)).

(** [self.input_widget.setValue(value)]. *)
Definition SpinBox_call_setValue (self : nat) (value : pyval) : M unit :=
  z ← as_c_int value;
  c ← get_spin self;
  set_control self (CSpin (SpinBox_setValue z c));;
  emit self (negb (sb_value (SpinBox_setValue z c) =? sb_value c))
       (QSpinBox__updateCurrentValue self).

Definition QSpinBox_setValue (self : nat) (value : pyval) : M unit :=
  t ← QClickEdit__addSuffix self value;
  text_setText self t;;
  SpinBox_call_setValue self value.

(** ** class QLineEdit *)

Definition QLineEdit__updateCurrentValue (self : nat) : M unit :=
  c ← get_line self;
  t ← QClickEdit__addSuffix self (VStr (le_text c));
  text_setText self t.

Definition QLineEdit__createInputWidget (self : nat) : M unit :=
  QClickEdit__createInputWidget self;;
  input_connect self.

Definition QLineEdit_getValue (self : nat) : M pyval :=
  c ← get_line self;
  mret (VStr (le_text c)).

(** [self.input_widget.setText(s)]. *)
Definition LineEdit_call_setText (self : nat) (s : string) : M unit :=
  c ← get_line self;
  set_control self (CLine (LineEdit_setText s c));;
  emit self (negb (String.eqb (le_text (LineEdit_setText s c)) (le_text c)))
       (QLineEdit__updateCurrentValue self).

Definition QLineEdit_setValue (self : nat) (value : pyval) : M unit :=
  LineEdit_call_setText self (str value).

(** ** class QTimeEdit *)

(** [value.toString(format)]: only a [QTime] has the method. *)
Definition call_toString (value : pyval) (format : string) : M string :=
  match value with
  | VQTime t => mret (QTime_toString t format)
  | _ => raise (AttributeError "object has no attribute 'toString'")
  end.

Definition QTimeEdit__updateCurrentValue (self : nat) : M unit :=
  c ← get_time self;
  f ← getattr "_display_format" _display_format self;
  text_setText self (QTime_toString (te_time c) f).

Definition QTimeEdit__createInputWidget (self : nat) : M unit :=
  QClickEdit__createInputWidget self;;
  input_connect self.

(** [self.input_widget.setDisplayFormat(format)]. *)
Definition TimeEdit_call_setDisplayFormat (self : nat) (format : string) : M unit :=
  c ← get_time self;
  set_control self (CTime (TimeEdit_setDisplayFormat format c)).

Definition QTimeEdit__setToEdit (self : nat) : M unit :=
  QClickEdit__setToEdit self;;
  f ← getattr "_display_format" _display_format self;
  TimeEdit_call_setDisplayFormat self f.

Definition QTimeEdit__inputCheck (self : nat) (value : pyval) : M unit :=
  match value with
  | VTime t => update_obj self (set_current_value (VQTime (QTime_of_pytime t)))
  | VQTime t => update_obj self (set_current_value value)
  | VBool false => update_obj self (set_current_value (VQTime (QTime_hms 0 0 0 0)))
  | _ => raise (TypeError msg_time)
  end.

Definition QTimeEdit_getValue (self : nat) : M pyval :=
  c ← get_time self;
  mret (VQTime (te_time c)).

(** [self.input_widget.setTime(value)]; the binding converts a
    [datetime.time] argument. *)
Definition TimeEdit_call_setTime (self : nat) (value : pyval) : M unit :=
  t ← match value with
      | VQTime t => mret t
      | VTime t => mret (QTime_of_pytime t)
      | _ => raise (TypeError "called with wrong argument types")
      end;
  c ← get_time self;
  set_control self (CTime (TimeEdit_setTime t c));;
  emit self (negb (mds (te_time (TimeEdit_setTime t c)) =? mds (te_time c)))
       (QTimeEdit__updateCurrentValue self).

Definition QTimeEdit_setValue (self : nat) (value : pyval) : M unit :=
  QTimeEdit__inputCheck self value;;
  t ← call_toString value "h:mm:ss a";
  text_setText self t;;
  TimeEdit_call_setTime self value.

Definition QTimeEdit_setDisplayFormat (self : nat) (format_string : string) : M unit :=
  c ← get_time self;
  text_setText self (QTime_toString (te_time c) format_string);;
  TimeEdit_call_setDisplayFormat self format_string;;
  update_obj self (set_display_format format_string).

(** ** class QComboBox *)

Definition QComboBox__updateCurrentValue (self : nat) : M unit :=
  c ← get_combo self;
  text_setText self (ComboBox_currentText c).

Definition QComboBox__createInputWidget (self : nat) : M unit :=
  QClickEdit__createInputWidget self;;
  input_connect self.

Definition QComboBox__inputCheck (self : nat) (values : pyval) : M (list string) :=
  match values with
  | VList l =>
      match l with
      | [] => raise (IndexError "list index out of range")
      | v0 :: _ =>
          update_obj self (set_current_value (VStr (str v0)));;
          mret (map str l)
      end
  | _ => mret [str values]
  end.

Definition QComboBox_getValue (self : nat) : M pyval :=
  c ← get_combo self;
  mret (VStr (ComboBox_currentText c)).

(** [self.input_widget.setCurrentIndex(index)]. *)
Definition ComboBox_call_setCurrentIndex (self : nat) (index : Z) : M unit :=
  c ← get_combo self;
  set_control self (CCombo (ComboBox_setCurrentIndex index c));;
  emit self (negb (cb_currentIndex (ComboBox_setCurrentIndex index c) =? cb_currentIndex c))
       (QComboBox__updateCurrentValue self).

(** [self.input_widget.addItem(item)]. *)
Definition ComboBox_call_addItem (self : nat) (item : string) : M unit :=
  c ← get_combo self;
  set_control self (CCombo (ComboBox_addItem item c));;
  emit self (negb (cb_currentIndex (ComboBox_addItem item c) =? cb_currentIndex c))
       (QComboBox__updateCurrentValue self).

Definition QComboBox_setValue (self : nat) (v : pyval) : M unit :=
  c ← get_combo self;
  ComboBox_call_setCurrentIndex self (ComboBox_findText (str v) c);;
  text_setText self (str v).

Definition QComboBox_setIndex (self : nat) (index : Z) : M unit :=
  ComboBox_call_setCurrentIndex self index;;
  c ← get_combo self;
  text_setText self (ComboBox_currentText c).

Definition QComboBox_getCurrentIndex (self : nat) : M Z :=
  c ← get_combo self;
  mret (cb_currentIndex c).

Definition QComboBox_addItem (self : nat) (item : pyval) : M unit :=
  ComboBox_call_addItem self (str item).

(** ** Method lookup by the class of [self] *)

Definition getValue (self : nat) : M pyval :=
  o ← get_obj self;
  match cls o with
  | QSpinBox => QSpinBox_getValue self
  | QLineEdit => QLineEdit_getValue self
  | QTimeEdit => QTimeEdit_getValue self
  | QComboBox => QComboBox_getValue self
  end.

Definition setValue (self : nat) (value : pyval) : M unit :=
  o ← get_obj self;
  match cls o with
  | QSpinBox => QSpinBox_setValue self value
  | QLineEdit => QLineEdit_setValue self value
  | QTimeEdit => QTimeEdit_setValue self value
  | QComboBox => QComboBox_setValue self value
  end.

Definition _createInputWidget (self : nat) : M unit :=
  o ← get_obj self;
  match cls o with
  | QSpinBox => QSpinBox__createInputWidget self
  | QLineEdit => QLineEdit__createInputWidget self
  | QTimeEdit => QTimeEdit__createInputWidget self
  | QComboBox => QComboBox__createInputWidget self
  end.

Definition _setToEdit (self : nat) : M unit :=
  o ← get_obj self;
  match cls o with
  | QTimeEdit => QTimeEdit__setToEdit self
  | _ => QClickEdit__setToEdit self
  end.

(** ** [QClickEdit._createTextWidget] and [QClickEdit.__init__] *)

Definition QClickEdit__createTextWidget (self : nat) : M unit :=
  update_obj self (set_text (MkButton "-" true));;
  v ← getValue self;
  t ← QClickEdit__addSuffix self v;
  text_setText self t.

(** The value of [tw.mousePressEvent]. *)
Definition get_mousePressEvent (tw : nat) : M handler :=
  gets (λ st, default (OriginalMPE tw) (mousePressEvent st !! tw)).

(** The loop over [QApplication.topLevelWidgets()]. *)
Fixpoint patch_loop (self : nat) (top_widgets : list nat) : M unit :=
  match top_widgets with
  | [] => mret tt
  | tw :: rest =>
      modified ← gets _top_widgets_modified;
      if bool_decide (tw ∈ modified) then patch_loop self rest
      else
        modify (λ st, set_top_widgets_modified (_top_widgets_modified st ++ [tw])%list st);;
        original_MPE ← get_mousePressEvent tw;
        modify (λ st, set_mousePressEvent
                        (<[tw := PartialMPE self tw original_MPE]> (mousePressEvent st)) st);;
        patch_loop self rest
  end.

Definition QClickEdit___init__ (self : nat) (current_value type_of_field suffix : pyval)
    : M unit :=
  (if negb (isinstance_str type_of_field || is_False type_of_field)
   then raise (TypeError msg_prefix) else mret tt);;
  (if negb (isinstance_str suffix || is_False suffix)
   then raise (TypeError msg_suffix) else mret tt);;
  update_obj self (set_suffix suffix);;
  (if truthy type_of_field then
     match type_of_field with
     | VStr s => update_obj self (set_prefix_label (s ++ ": "))
     | _ => raise (TypeError "unsupported operand type(s) for +")
     end
   else mret tt);;
  modify (λ st, set_registry (_registry st ++ [self])%list st);;
  _createInputWidget self;;
  QClickEdit__createTextWidget self;;
  setValue self current_value;;
  top_widgets ← gets topLevelWidgets;
  patch_loop self top_widgets.

(** ** The constructors of the four classes *)

Definition QSpinBox___init__ (self : nat) (current_value type_of_field suffix : pyval)
    : M unit :=
  update_obj self (set_widget_ SpinBox_cls);;
  QClickEdit___init__ self current_value type_of_field suffix.

Definition QLineEdit___init__ (self : nat) (current_value type_of_field suffix : pyval)
    : M unit :=
  update_obj self (set_widget_ LineEdit_cls);;
  update_obj self (set_current_value current_value);;
  QClickEdit___init__ self current_value type_of_field suffix.

Definition QTimeEdit___init__ (self : nat) (current_time type_of_field : pyval)
    (display_format : string) : M unit :=
  QTimeEdit__inputCheck self current_time;;
  update_obj self (set_display_format display_format);;
  update_obj self (set_widget_ TimeEdit_cls);;
  v ← getattr "_current_value" _current_value self;
  QClickEdit___init__ self v type_of_field (VBool false).

Fixpoint addItem_loop (self : nat) (items : list string) : M unit :=
  match items with
  | [] => mret tt
  | item :: rest => ComboBox_call_addItem self item;; addItem_loop self rest
  end.

Definition QComboBox___init__ (self : nat) (items : pyval) : M unit :=
  items ← QComboBox__inputCheck self items;
  update_obj self (set_widget_ ComboBox_cls);;
  v ← getattr "_current_value" _current_value self;
  QClickEdit___init__ self v (VBool false) (VBool false);;
  addItem_loop self items.

(** A call of a class: the object is allocated, [__init__] runs on it. *)
Inductive call :=
| NewSpinBox (current_value type_of_field suffix : pyval)
| NewLineEdit (current_value type_of_field suffix : pyval)
| NewTimeEdit (current_time type_of_field : pyval) (display_format : string)
| NewComboBox (items : pyval).

Definition class_of (c : call) : class :=
  match c with
  | NewSpinBox _ _ _ => QSpinBox
  | NewLineEdit _ _ _ => QLineEdit
  | NewTimeEdit _ _ _ => QTimeEdit
  | NewComboBox _ => QComboBox
  end.

Definition __init__ (self : nat) (c : call) : M unit :=
  match c with
  | NewSpinBox v p s => QSpinBox___init__ self v p s
  | NewLineEdit v p s => QLineEdit___init__ self v p s
  | NewTimeEdit v p f => QTimeEdit___init__ self v p f
  | NewComboBox items => QComboBox___init__ self items
  end.

Definition construct (c : call) : M nat :=
  self ← new (class_of c);
  __init__ self c;;
  mret self.

(** ** Events

    What the host's event loop delivers between the calls of the client. *)

(** A call of the handler [h]. *)
Fixpoint call_handler (h : handler) (event : QEvent) : M unit :=
  match h with
  | OriginalMPE tw => class_mousePressEvent tw event
  | PartialMPE self parent original =>
      QClickEdit__topWidgetMousePressEvent self parent (call_handler original) event
  end.

(** A mouse press delivered to the top-level widget [tw]. *)
Definition deliver_mousePress (tw : nat) (event : QEvent) : M unit :=
  h ← get_mousePressEvent tw;
  call_handler h event.

(** The [clicked] signal of [self.text], connected to [self._setToEdit]
    once the button exists. *)
Definition deliver_clicked (self : nat) : M unit :=
  _ ← getattr "text" text self;
  _setToEdit self.

(** The input widget of [self] loses focus: its [focusOutEvent] is
    [self.focusOutEvent]. *)
Definition deliver_focusOut (self : nat) : M unit :=
  _ ← getattr "input_widget" input_widget self;
  QClickEdit_focusOutEvent self FocusOut.

(** The pointer enters or leaves the input widget of [self]. *)
Definition pointer (self : nat) (over : bool) : M unit :=
  i ← getattr "input_widget" input_widget self;
  update_obj self (set_input_widget (MkInput (in_control i) (in_visible i) over (in_connected i))).

Inductive action :=
| Construct (c : call)
| ClickLabel (w : nat)
| LoseFocus (w : nat)
| MousePress (tw : nat) (x y : Z)
| PointerEnter (w : nat)
| PointerLeave (w : nat)
| TopLevel (l : list nat).

Definition perform (a : action) : M unit :=
  match a with
  | Construct c => construct c;; mret tt
  | ClickLabel w => deliver_clicked w
  | LoseFocus w => deliver_focusOut w
  | MousePress tw x y => deliver_mousePress tw (MouseButtonPress x y)
  | PointerEnter w => pointer w true
  | PointerLeave w => pointer w false
  | TopLevel l => modify (set_topLevelWidgets l)
  end.

(** An exception that reaches the event loop is reported and the loop
    goes on: the world after an action is the one the action left. *)
Definition step (st : World) (a : action) : World := snd (perform a st).

Definition run (st : World) (l : list action) : World := fold_left step l st.

(** ** Observations on the world *)

(** [w] is in input mode: its input widget is shown. *)
Definition input_visible (st : World) (w : nat) : bool :=
  match heap st !! w with
  | Some o => match input_widget o with Some i => in_visible i | None => false end
  | None => false
  end.

Definition label_visible (st : World) (w : nat) : bool :=
  match heap st !! w with
  | Some o => match text o with Some b => b_visible b | None => false end
  | None => false
  end.

Definition under_mouse (st : World) (w : nat) : bool :=
  match heap st !! w with
  | Some o => match input_widget o with Some i => in_underMouse i | None => false end
  | None => false
  end.

Definition label_text (st : World) (w : nat) : option string :=
  o ← heap st !! w; b ← text o; Some (b_text b).

Definition input_control (st : World) (w : nat) : option control :=
  o ← heap st !! w; i ← input_widget o; Some (in_control i).

Definition input_time (st : World) (w : nat) : option QTime :=
  match input_control st w with
  | Some (CTime c) => Some (te_time c)
  | _ => None
  end.

Definition class_at (st : World) (w : nat) : option class := cls <$> heap st !! w.

(** The handler in place on the top-level widget [tw]. *)
Definition handler_of (st : World) (tw : nat) : handler :=
  default (OriginalMPE tw) (mousePressEvent st !! tw).

(** How many times a handler has been wrapped. *)
Fixpoint wraps (h : handler) : nat :=
  match h with
  | OriginalMPE _ => 0
  | PartialMPE _ _ original => S (wraps original)
  end.

(** ** Constructed widgets and well-formed worlds *)

Definition class_control (c : class) (k : control) : bool :=
  match c, k with
  | QSpinBox, CSpin _ | QLineEdit, CLine _ | QTimeEdit, CTime _ | QComboBox, CCombo _ => true
  | _, _ => false
  end.

(** The host class each of the four classes stores in [self.widget_]. *)
Definition host_class_of (c : class) : host_class :=
  match c with
  | QSpinBox => SpinBox_cls
  | QLineEdit => LineEdit_cls
  | QTimeEdit => TimeEdit_cls
  | QComboBox => ComboBox_cls
  end.

(** An object before [_createInputWidget] and [_createTextWidget]. *)
Definition bare (o : Obj) : Prop := input_widget o = None ∧ text o = None.

(** An object on which the base constructor has created both
    sub-widgets: the control is the one of the class, the suffix has
    passed its check, a QTimeEdit has its display format. *)
Definition ready (o : Obj) : bool :=
  match input_widget o, text o, suffix o with
  | Some i, Some b, Some sfx =>
      class_control (cls o) (in_control i) &&
      (isinstance_str sfx || is_False sfx) &&
      match cls o with
      | QTimeEdit => match _display_format o with Some _ => true | None => false end
      | _ => true
      end
  | _, _, _ => false
  end.

Definition widget_ready (st : World) (w : nat) : bool :=
  match heap st !! w with Some o => ready o | None => false end.

(** A constructed widget in label mode as the constructor leaves it. *)
Definition fresh_widget (o : Obj) : Prop :=
  ready o = true ∧ in_visible <$> input_widget o = Some false.

(** A well-formed world: identities below [next_id] only; every
    registered widget has been through the base constructor; an object
    that is not registered has no sub-widget yet. *)
Definition wf (st : World) : Prop :=
  (∀ w o, heap st !! w = Some o → (w < next_id st)%nat)
  ∧ (∀ w, w ∈ _registry st → ∃ o, heap st !! w = Some o ∧ ready o = true)
  ∧ (∀ w o, heap st !! w = Some o → w ∉ _registry st →
            input_widget o = None ∧ text o = None).

(** Two states of a widget that differ neither in what is shown, nor in
    the pointer, nor in being constructed. *)
Definition same_mode (o o' : Obj) : Prop :=
  cls o' = cls o
  ∧ ready o' = ready o
  ∧ (λ i, (in_visible i, in_underMouse i)) <$> input_widget o'
    = (λ i, (in_visible i, in_underMouse i)) <$> input_widget o
  ∧ b_visible <$> text o' = b_visible <$> text o.

(** Two worlds with the same identities and registry, whose objects
    are the same as to being constructed. *)
Definition same_kind (o o' : Obj) : Prop := ready o' = ready o ∧ (bare o → bare o').

Definition morph (st st' : World) : Prop :=
  next_id st' = next_id st ∧ _registry st' = _registry st
  ∧ ∀ w, match heap st !! w, heap st' !! w with
         | Some o, Some o' => same_kind o o'
         | None, None => True
         | _, _ => False
         end.

(** ** The sweep, widget by widget

    What [_freezeInputPrecheck] does to one registered widget, and to the
    heap; the loop is shown below to compute exactly this. *)

Definition hide_input (o : Obj) : Obj :=
  match input_widget o with
  | Some i => set_input_widget (MkInput (in_control i) false (in_underMouse i) (in_connected i)) o
  | None => o
  end.

Definition show_label (o : Obj) : Obj :=
  match text o with
  | Some b => set_text (MkButton (b_text b) true) o
  | None => o
  end.

Definition collapse (o : Obj) : Obj :=
  match input_widget o with
  | Some i => if in_visible i && negb (in_underMouse i) then show_label (hide_input o) else o
  | None => o
  end.

Definition sweep_heap (reg : list nat) (h : gmap nat Obj) : gmap nat Obj :=
  fold_left (λ h w, alter collapse w h) reg h.

Definition sweep (st : World) : World :=
  set_heap (sweep_heap (_registry st) (heap st)) st.

(** The widget in input mode: label hidden, input shown. *)
Definition to_input (o : Obj) : Obj :=
  match input_widget o, text o with
  | Some i, Some b =>
      set_input_widget (MkInput (in_control i) true (in_underMouse i) (in_connected i))
                       (set_text (MkButton (b_text b) false) o)
  | _, _ => o
  end.

(** The QTimeEdit whose control has taken the display format of the
    widget. *)
Definition apply_format (o : Obj) : Obj :=
  match input_widget o, _display_format o with
  | Some i, Some f =>
      match in_control i with
      | CTime c =>
          set_input_widget (MkInput (CTime (TimeEdit_setDisplayFormat f c)) (in_visible i)
                                    (in_underMouse i) (in_connected i)) o
      | _ => o
      end
  | _, _ => o
  end.

(** The activated widget after [_setToEdit]: swept with the others,
    then put in input mode. *)
Definition activated (o : Obj) : Obj :=
  match cls o with
  | QTimeEdit => apply_format (to_input (collapse o))
  | _ => to_input (collapse o)
  end.

(** ** One editor per window *)

(** No input widget is shown in [st'] that was not in [st]. *)
Definition quieter (st st' : World) : Prop :=
  ∀ w, input_visible st' w = true → input_visible st w = true.




(** ** The patched handlers *)

(** The handlers in place are the ones the constructor installs: on
    each widget of [_top_widgets_modified] the original handler wrapped
    once, on every other widget no replacement. *)
Definition patched (st : World) : Prop :=
  ∀ tw, (tw ∈ _top_widgets_modified st →
         ∃ self, mousePressEvent st !! tw = Some (PartialMPE self tw (OriginalMPE tw)))
        ∧ (tw ∉ _top_widgets_modified st → mousePressEvent st !! tw = None).

(** A sequence of constructions, each with the top-level widgets of the
    application at that time. *)
Definition constructions (l : list (list nat * call)) : list action :=
  flat_map (λ tc, [TopLevel (fst tc); Construct (snd tc)]) l.

(** ** Values and their rendering *)

(** The argument types that the time coercion names: [datetime.time],
    [QTime], and the value [False]. *)
Definition is_time_value (v : pyval) : bool :=
  match v with
  | VTime _ | VQTime _ | VBool false => true
  | _ => false
  end.

(** The integer an argument stands for where the host expects a C [int]. *)
Definition int_value (v : pyval) : option Z :=
  match v with
  | VInt z => Some z
  | VBool b => Some (if b then 1 else 0)
  | _ => None
  end.




(** The text that [_updateCurrentValue] writes on the label: the value
    of the control, rendered, with the suffix. *)
Definition rendering (o : Obj) : option string :=
  i ← input_widget o;
  match in_control i with
  | CSpin c =>
      sfx ← suffix o;
      Some (if truthy sfx then str (VInt (sb_value c)) ++ " " ++ str sfx
            else str (VInt (sb_value c)))
  | CLine c =>
      sfx ← suffix o;
      Some (if truthy sfx then le_text c ++ " " ++ str sfx else le_text c)
  | CTime c => f ← _display_format o; Some (QTime_toString (te_time c) f)
  | CCombo c => Some (ComboBox_currentText c)
  end.

(** The label of [w] shows the value of its control. *)
Definition label_synced (st : World) (w : nat) : Prop :=
  ∃ o, heap st !! w = Some o ∧ is_Some (rendering o)
       ∧ b_text <$> text o = rendering o.

(** ** Exceptions of a method *)

(** [m] raises only exceptions in [P]. *)
Definition raises_only {A} (P : exn → Prop) (m : M A) : Prop :=
  ∀ st e, fst (m st) = Raise e → P e.

(** The two errors of the argument checks of [QClickEdit.__init__]. *)
Definition check_error (e : exn) : Prop :=
  e = TypeError msg_prefix ∨ e = TypeError msg_suffix.

(** The outcome of a call is one of these two errors, the world being
    the one before the call. *)
Definition check_error_raised {A} (r : res A * World) (st : World) : Prop :=
  (fst r = Raise (TypeError msg_prefix) ∨ fst r = Raise (TypeError msg_suffix))
  ∧ snd r = st.

(** ** The rest of the public interface *)

(** [QComboBox.removeItem(index)] of the host: nothing happens out of
    range.  Otherwise the item leaves the list; the current index follows
    its item when an earlier one is removed, and when the current item
    itself is removed the item that takes its place becomes current (the
    last one if there is none after it, none if the box is empty).  The
    second component tells whether [currentIndexChanged] is emitted. *)
Definition ComboBox_removeItem (i : Z) (c : ComboBox) : ComboBox * bool :=
  if (0 <=? i) && (i <? Z.of_nat (length (cb_items c))) then
    let items := delete (Z.to_nat i) (cb_items c) in
    if i <? cb_currentIndex c then (MkComboBox items (cb_currentIndex c - 1), true)
    else if i =? cb_currentIndex c then
      (MkComboBox items
                  (match items with
                   | [] => -1
                   | _ => Z.min (Z.of_nat (length items) - 1) (cb_currentIndex c)
                   end), true)
    else (MkComboBox items (cb_currentIndex c), false)
  else (c, false).

(** [self.input_widget.removeItem(index)]. *)
Definition ComboBox_call_removeItem (self : nat) (index : Z) : M unit :=
  c ← get_combo self;
  set_control self (CCombo (fst (ComboBox_removeItem index c)));;
  emit self (snd (ComboBox_removeItem index c)) (QComboBox__updateCurrentValue self).

Definition QComboBox_removeIndex (self : nat) (index : Z) : M unit :=
  ComboBox_call_removeItem self index.

Definition QComboBox_removeItem (self : nat) (item : pyval) : M unit :=
  c ← get_combo self;
  ComboBox_call_removeItem self (ComboBox_findText (str item) c).

(** A call of a public method on [self]: the method is looked up in the
    class of the object, which may not have it. *)
Inductive public_call :=
| Call_getValue
| Call_setValue (value : pyval)
| Call_setDisplayFormat (format_string : string)
| Call_setIndex (index : Z)
| Call_getCurrentIndex
| Call_removeIndex (index : Z)
| Call_addItem (item : pyval)
| Call_removeItem (item : pyval).

Definition invoke (self : nat) (c : public_call) : M unit :=
  o ← get_obj self;
  match c, cls o with
  | Call_getValue, _ => getValue self;; mret tt
  | Call_setValue v, _ => setValue self v
  | Call_setDisplayFormat f, QTimeEdit => QTimeEdit_setDisplayFormat self f
  | Call_setIndex i, QComboBox => QComboBox_setIndex self i
  | Call_getCurrentIndex, QComboBox => QComboBox_getCurrentIndex self;; mret tt
  | Call_removeIndex i, QComboBox => QComboBox_removeIndex self i
  | Call_addItem x, QComboBox => QComboBox_addItem self x
  | Call_removeItem x, QComboBox => QComboBox_removeItem self x
  | _, _ => raise (AttributeError "object has no such method")
  end.

(** ** More observations *)

(** [text] with the suffix [sfx], as [_addSuffix] writes it. *)
Definition suffixed (sfx : pyval) (text : string) : string :=
  if truthy sfx then text ++ " " ++ str sfx else text.

Definition suffix_at (st : World) (w : nat) : option pyval :=
  o ← heap st !! w; suffix o.

Definition display_format_at (st : World) (w : nat) : option string :=
  o ← heap st !! w; _display_format o.

Definition prefix_label_at (st : World) (w : nat) : option string :=
  o ← heap st !! w; prefix_label o.

Definition spin_at (st : World) (w : nat) : option SpinBox :=
  match input_control st w with Some (CSpin c) => Some c | _ => None end.

Definition line_at (st : World) (w : nat) : option LineEdit :=
  match input_control st w with Some (CLine c) => Some c | _ => None end.

Definition time_at (st : World) (w : nat) : option TimeEdit :=
  match input_control st w with Some (CTime c) => Some c | _ => None end.

Definition combo_at (st : World) (w : nat) : option ComboBox :=
  match input_control st w with Some (CCombo c) => Some c | _ => None end.

(** A constructed widget of class [c] whose change signal is connected,
    as every constructed widget is. *)
Definition live (c : class) (o : Obj) : bool :=
  ready o && match cls o, c with
             | QSpinBox, QSpinBox | QLineEdit, QLineEdit
             | QTimeEdit, QTimeEdit | QComboBox, QComboBox => true
             | _, _ => false
             end
          && match input_widget o with Some i => in_connected i | None => false end.

Definition live_at (c : class) (st : World) (w : nat) : bool :=
  match heap st !! w with Some o => live c o | None => false end.


(** An argument that the binding converts to a C [int]. *)
Definition c_int (v : pyval) : option Z :=
  match int_value v with
  | Some z => if (-2147483648 <=? z) && (z <=? 2147483647) then Some z else None
  | None => None
  end.

(** What the host keeps true of a combo box: the current index is [-1]
    or the index of an item. *)
Definition ComboBox_ok (c : ComboBox) : bool :=
  (-1 <=? cb_currentIndex c) && (cb_currentIndex c <? Z.of_nat (length (cb_items c))).


(** The type of what [getValue()] returns, class by class: an int, a
    str, a [QTime], a str. *)
Definition returned_by (c : class) (v : pyval) : bool :=
  match c, v with
  | QSpinBox, VInt _ | QLineEdit, VStr _ | QTimeEdit, VQTime _ | QComboBox, VStr _ => true
  | _, _ => false
  end.



(** [m] leaves the top-level widgets of the application, and the list
    of the ones that have been patched, as they are. *)
Definition leaves_top_widgets {A} (m : M A) : Prop :=
  ∀ st, topLevelWidgets (snd (m st)) = topLevelWidgets st
        ∧ _top_widgets_modified (snd (m st)) = _top_widgets_modified st.

(** When [m] returns, every top-level widget of the application is among
    the patched ones, with the ones that were there before. *)
Definition patches_top_widgets {A} (m : M A) : Prop :=
  ∀ st a st', m st = (Ok a, st') →
    (∀ tw, tw ∈ topLevelWidgets st → tw ∈ _top_widgets_modified st')
    ∧ (∀ tw, tw ∈ _top_widgets_modified st → tw ∈ _top_widgets_modified st').

(** What a widget shows: whether its input widget and its label are
    visible. *)
Definition shown (o : Obj) : option bool * option bool :=
  (in_visible <$> input_widget o, b_visible <$> text o).

(** [m] writes the object [self] only, and neither shows nor hides any
    of its sub-widgets. *)
Definition writes_self {A} (self : nat) (m : M A) : Prop :=
  ∀ st, ∃ h, snd (m st) = set_heap h st
             ∧ (∀ w, w ≠ self → h !! w = heap st !! w)
             ∧ shown <$> h !! self = shown <$> heap st !! self.

(** ** The claims on activation, focus loss and setValue, as worded

    Three properties in the words of the specification; each holds in
    the amended form proved below, and fails as worded on one of the
    scenarios. *)


(** A widget in input mode whose input widget loses focus is back in
    label mode. *)
Definition focus_loss_restores_label (st : World) (w : nat) : Prop :=
  input_visible st w = true →
  input_visible (snd (deliver_focusOut w st)) w = false
  ∧ label_visible (snd (deliver_focusOut w st)) w = true.


(** ** Concrete scenarios

    An instance of the two parameters, and a few sequences of actions,
    on which the properties below are evaluated. *)

(** A rendering of times: hours, minutes and seconds on 24 hours,
    whatever the format. *)
Definition sample_toString (t : QTime) (format : string) : string :=
  pretty (QTime_hour t) ++ ":" ++ pad 2 (QTime_minute t) ++ ":" ++ pad 2 (QTime_second t).

(** Top-level widgets whose own handler does nothing. *)
Definition sample_mousePressEvent (tw : nat) (event : QEvent) : M unit := mret tt.

(** Two line edits in a window whose identity is 7. *)
Definition two_line_edits : list action :=
  [TopLevel [7%nat];
   Construct (NewLineEdit (VStr "Blorka") (VStr "Name") (VStr "Sr."));
   Construct (NewLineEdit (VStr "Zonk") (VBool false) (VBool false))].


(** The first label is activated, then the second, the pointer being
    over neither input widget; focus is lost and the window is pressed. *)
Definition labels_by_mouse : list action :=
  (two_line_edits ++ [ClickLabel 0; ClickLabel 1; LoseFocus 1; MousePress 7 0 0])%list.

(** The first widget is in input mode. *)
Definition first_in_input_mode : list action := (two_line_edits ++ [ClickLabel 0])%list.

(** The first widget is in input mode, the pointer over its input. *)
Definition first_under_pointer : list action :=
  (two_line_edits ++ [ClickLabel 0; PointerEnter 0])%list.

(** A combo box with one item, a spin box, a time edit. *)
Definition one_of_each : list action :=
  [Construct (NewComboBox (VList [VStr "asdf"]));
   Construct (NewSpinBox (VInt 23) (VStr "Temperature") (VStr "C"));
   Construct (NewTimeEdit (VQTime (QTime_hms 1 0 0 0)) (VStr "On Time") "h:mm:ss a")].

(** A combo box with three items. *)
Definition three_items : list action :=
  [Construct (NewComboBox (VList [VStr "asdf"; VInt 23; VInt 4]))].

(** A window, then a line edit. *)
Definition line_edit_in_window : list action :=
  [TopLevel [7%nat];
   Construct (NewLineEdit (VStr "Blorka") (VStr "Name") (VStr "Sr."))].

(** * Properties *)

(** ** Running methods step by step *)

Lemma bind_run {A B} (m : M A) (f : A → M B) (st : World) :
  (m ≫= f) st =
  match m st with
  | (Ok a, st') => f a st'
  | (Raise e, st') => (Raise e, st')
  end.
Proof. reflexivity. Qed.

Lemma bind_Ok {A B} (m : M A) (f : A → M B) (st st' : World) (a : A) :
  m st = (Ok a, st') → (m ≫= f) st = f a st'.
Proof. intros H. rewrite bind_run, H. reflexivity. Qed.

Lemma bind_Raise {A B} (m : M A) (f : A → M B) (st st' : World) (e : exn) :
  m st = (Raise e, st') → (m ≫= f) st = (Raise e, st').
Proof. intros H. rewrite bind_run, H. reflexivity. Qed.

Lemma get_obj_run (self : nat) (st : World) (o : Obj) :
  heap st !! self = Some o → get_obj self st = (Ok o, st).
Proof. intros H. unfold get_obj. rewrite H. reflexivity. Qed.

Lemma update_obj_run (self : nat) (f : Obj → Obj) (st : World) (o : Obj) :
  heap st !! self = Some o →
  update_obj self f st = (Ok tt, set_heap (<[self := f o]> (heap st)) st).
Proof.
  intros H. unfold update_obj. rewrite (bind_Ok _ _ _ _ _ (get_obj_run _ _ _ H)).
  reflexivity.
Qed.

Lemma getattr_run {A} (name : string) (proj : Obj → option A) (self : nat)
    (st : World) (o : Obj) :
  heap st !! self = Some o →
  getattr name proj self st =
  match proj o with
  | Some a => (Ok a, st)
  | None => (Raise (AttributeError ("object has no attribute '" ++ name ++ "'")), st)
  end.
Proof.
  intros H. unfold getattr. rewrite (bind_Ok _ _ _ _ _ (get_obj_run _ _ _ H)).
  destruct (proj o); reflexivity.
Qed.

Lemma heap_set_heap (h : gmap nat Obj) (st : World) : heap (set_heap h st) = h.
Proof. reflexivity. Qed.

Lemma set_heap_set_heap (h h' : gmap nat Obj) (st : World) :
  set_heap h (set_heap h' st) = set_heap h st.
Proof. reflexivity. Qed.

Lemma set_heap_id (st : World) : set_heap (heap st) st = st.
Proof. destruct st; reflexivity. Qed.

(** ** The empty-list and single-value constructions of QComboBox *)

(** C9. Constructing a QComboBox with an empty list raises IndexError out
    of the constructor: [_inputCheck] reads [values[0]] with no check
    that the list has an element.  Nothing has been registered. *)
Theorem QComboBox_empty_list_IndexError (st : World) :
  fst (construct (NewComboBox (VList [])) st) = Raise (IndexError "list index out of range")
  ∧ _registry (snd (construct (NewComboBox (VList [])) st)) = _registry st.
Proof.
  split; reflexivity.
Qed.

(** C5. A single value that is not a list: [_inputCheck] leaves
    [self._current_value] unset, and the constructor of QComboBox stops
    with AttributeError when it reads it, before the base constructor
    runs. *)
Theorem QComboBox_single_value_AttributeError (v : pyval) (st : World) :
  (∀ l, v ≠ VList l) →
  fst (construct (NewComboBox v) st)
  = Raise (AttributeError "object has no attribute '_current_value'")
  ∧ _registry (snd (construct (NewComboBox v) st)) = _registry st.
Proof.
  intros Hv.
  assert (E : QComboBox__inputCheck (next_id st) v = mret [str v]).
  { destruct v; try reflexivity. destruct (Hv l); reflexivity. }
  unfold construct. rewrite bind_run. cbn [new class_of __init__].
  unfold QComboBox___init__. rewrite E.
  set (st0 := set_next_id _ _).
  assert (H0 : heap st0 !! next_id st = Some (Obj_new QComboBox)).
  { subst st0. cbn [heap set_next_id set_heap]. apply lookup_insert_eq. }
  rewrite (bind_run (_ ≫= _)). rewrite (bind_run (mret _)).
  cbn [mret M_ret].
  rewrite (bind_run (update_obj _ _)), (update_obj_run _ _ _ _ H0).
  rewrite (bind_run (getattr _ _ _)).
  erewrite getattr_run by (rewrite heap_set_heap; apply lookup_insert_eq).
  cbn. split; reflexivity.
Qed.

(** Rewriting rules for a world whose heap holds [self]: the world stays
    of the form [set_heap (<[self := o]> h) st]. *)

Lemma bind_assoc_run {A B C} (m : M A) (f : A → M B) (g : B → M C) (st : World) :
  ((m ≫= f) ≫= g) st = (m ≫= (λ a, f a ≫= g)) st.
Proof. rewrite !bind_run. destruct (m st) as [[a|e] st']; reflexivity. Qed.

Lemma ret_bind_run {A B} (a : A) (f : A → M B) (st : World) :
  (mret a ≫= f) st = f a st.
Proof. reflexivity. Qed.

Lemma raise_bind_run {A B} (e : exn) (f : A → M B) (st : World) :
  (raise e ≫= f) st = (Raise e, st).
Proof. reflexivity. Qed.

Lemma gets_bind_run {A B} (p : World → A) (f : A → M B) (st : World) :
  (gets p ≫= f) st = f (p st) st.
Proof. reflexivity. Qed.

Lemma modify_bind_run {B} (p : World → World) (f : unit → M B) (st : World) :
  (modify p ≫= f) st = f tt (p st).
Proof. reflexivity. Qed.

Lemma get_obj_ins (self : nat) (o : Obj) (h : gmap nat Obj) (st : World) :
  get_obj self (set_heap (<[self := o]> h) st) = (Ok o, set_heap (<[self := o]> h) st).
Proof. apply get_obj_run. apply lookup_insert_eq. Qed.

Lemma update_obj_ins (self : nat) (f : Obj → Obj) (o : Obj) (h : gmap nat Obj) (st : World) :
  update_obj self f (set_heap (<[self := o]> h) st) = (Ok tt, set_heap (<[self := f o]> h) st).
Proof.
  erewrite update_obj_run by apply lookup_insert_eq.
  rewrite heap_set_heap, set_heap_set_heap, insert_insert_eq. reflexivity.
Qed.

Lemma getattr_ins {A} (name : string) (proj : Obj → option A) (self : nat) (o : Obj)
    (h : gmap nat Obj) (st : World) :
  getattr name proj self (set_heap (<[self := o]> h) st) =
  match proj o with
  | Some a => (Ok a, set_heap (<[self := o]> h) st)
  | None => (Raise (AttributeError ("object has no attribute '" ++ name ++ "'")),
             set_heap (<[self := o]> h) st)
  end.
Proof. apply getattr_run. apply lookup_insert_eq. Qed.

Lemma get_obj_bind_ins {B} (self : nat) (o : Obj) (h : gmap nat Obj) (st : World)
    (k : Obj → M B) :
  (get_obj self ≫= k) (set_heap (<[self := o]> h) st) = k o (set_heap (<[self := o]> h) st).
Proof. rewrite bind_run, get_obj_ins. reflexivity. Qed.

Lemma update_obj_bind_ins {B} (self : nat) (f : Obj → Obj) (o : Obj) (h : gmap nat Obj)
    (st : World) (k : unit → M B) :
  (update_obj self f ≫= k) (set_heap (<[self := o]> h) st)
  = k tt (set_heap (<[self := f o]> h) st).
Proof. rewrite bind_run, update_obj_ins. reflexivity. Qed.

Lemma getattr_bind_ins {A B} (name : string) (proj : Obj → option A) (self : nat) (o : Obj)
    (h : gmap nat Obj) (st : World) (k : A → M B) :
  (getattr name proj self ≫= k) (set_heap (<[self := o]> h) st) =
  match proj o with
  | Some a => k a (set_heap (<[self := o]> h) st)
  | None => (Raise (AttributeError ("object has no attribute '" ++ name ++ "'")),
             set_heap (<[self := o]> h) st)
  end.
Proof. rewrite bind_run, getattr_ins. destruct (proj o); reflexivity. Qed.

(** A world in which [self] is allocated is of that form. *)
Lemma world_ins (self : nat) (o : Obj) (st : World) :
  heap st !! self = Some o → st = set_heap (<[self := o]> (heap st)) st.
Proof. intros H. rewrite (insert_id _ _ _ H). symmetry. apply set_heap_id. Qed.

Ltac mrun_step :=
  match goal with
  | |- context [(?m ≫= ?f) ?st] =>
      lazymatch m with
      | _ ≫= _ => rewrite (bind_assoc_run _ _ f st)
      | mret ?a => rewrite (ret_bind_run a f st)
      | raise ?e => rewrite (raise_bind_run e f st)
      | gets ?p => rewrite (gets_bind_run p f st)
      | modify ?p => rewrite (modify_bind_run p f st)
      | get_obj _ => rewrite get_obj_bind_ins
      | update_obj _ _ => rewrite update_obj_bind_ins
      | getattr _ _ _ => rewrite getattr_bind_ins
      end
  | |- context [get_obj _ (set_heap (<[_ := _]> _) _)] => rewrite get_obj_ins
  | |- context [update_obj _ _ (set_heap (<[_ := _]> _) _)] => rewrite update_obj_ins
  | |- context [getattr _ _ _ (set_heap (<[_ := _]> _) _)] => rewrite getattr_ins
  end.

Ltac obj_simpl :=
  cbn [cls widget_ _current_value _display_format suffix prefix_label
       input_widget text set_widget_ set_current_value set_display_format
       set_suffix set_prefix_label set_input_widget set_text
       in_control in_visible in_underMouse in_connected b_text b_visible
       andb orb negb fst snd].

Ltac mrun := repeat first [ mrun_step | progress obj_simpl ].

(** ** The time coercion of QTimeEdit *)

(** [_inputCheck] on a [datetime.time], a [QTime] or [False] stores a
    [QTime] in [self._current_value]: the converted time, the time
    itself, midnight. *)
Lemma QTimeEdit__inputCheck_accepts (self : nat) (v : pyval) (st : World) (o : Obj) :
  heap st !! self = Some o →
  is_time_value v = true →
  ∃ t, QTimeEdit__inputCheck self v st
       = (Ok tt, set_heap (<[self := set_current_value (VQTime t) o]> (heap st)) st)
       ∧ t = match v with
             | VTime d => QTime_of_pytime d
             | VQTime q => q
             | _ => QTime_hms 0 0 0 0
             end.
Proof.
  intros H Hv.
  destruct v as [| |[]| | | | |]; try discriminate Hv;
    (eexists; split; [apply (update_obj_run _ _ _ _ H) | reflexivity]).
Qed.

Lemma QTimeEdit__inputCheck_rejects (self : nat) (v : pyval) (st : World) :
  is_time_value v = false →
  QTimeEdit__inputCheck self v st = (Raise (TypeError msg_time), st).
Proof.
  intros Hv. destruct v as [| |[]| | | | |]; try discriminate Hv; reflexivity.
Qed.

(** C6. The constructor applies the coercion and goes on with the
    coerced [QTime]; [setValue] applies it and then goes on with its raw
    argument: on a [datetime.time] and on [False] it stops with
    AttributeError at [value.toString], although the coercion has
    accepted the value. *)
Theorem QTimeEdit_setValue_uses_raw_argument (self : nat) (st : World) :
  (∀ d, ∃ msg, fst (QTimeEdit_setValue self (VTime d) st) = Raise (AttributeError msg))
  ∧ (∃ msg, fst (QTimeEdit_setValue self (VBool false) st) = Raise (AttributeError msg)).
Proof.
  split; [intros d|];
    unfold QTimeEdit_setValue, QTimeEdit__inputCheck;
    rewrite bind_run; unfold update_obj; rewrite bind_run; unfold get_obj;
    (destruct (heap st !! self); [|eexists; reflexivity]);
    eexists; reflexivity.
Qed.

(** On an allocated QTimeEdit, [setValue(False)] gets past the
    coercion, which stores midnight in [self._current_value], and stops
    at [value.toString]: neither the label nor the control is written. *)
Lemma QTimeEdit_setValue_False_run (self : nat) (st : World) (o : Obj) :
  heap st !! self = Some o →
  QTimeEdit_setValue self (VBool false) st
  = (Raise (AttributeError "object has no attribute 'toString'"),
     set_heap (<[self := set_current_value (VQTime (QTime_hms 0 0 0 0)) o]> (heap st)) st).
Proof.
  intros H. unfold QTimeEdit_setValue, QTimeEdit__inputCheck.
  rewrite bind_run, (update_obj_run _ _ _ _ H). reflexivity.
Qed.

(** C10. On an argument that is neither a [datetime.time], a [QTime]
    nor [False], [QTimeEdit.setValue] raises TypeError and leaves the
    world as it was: the label text and the time of the input widget are
    the ones before the call. *)
Theorem QTimeEdit_setValue_TypeError_atomic (self : nat) (v : pyval) (st : World) :
  is_time_value v = false →
  QTimeEdit_setValue self v st = (Raise (TypeError msg_time), st)
  ∧ label_text (snd (QTimeEdit_setValue self v st)) self = label_text st self
  ∧ input_time (snd (QTimeEdit_setValue self v st)) self = input_time st self.
Proof.
  intros Hv.
  assert (E : QTimeEdit_setValue self v st = (Raise (TypeError msg_time), st)).
  { unfold QTimeEdit_setValue.
    apply bind_Raise, QTimeEdit__inputCheck_rejects, Hv. }
  rewrite E. auto.
Qed.

(** ** Which exceptions a method can raise *)

Section Raises.

Context (P : exn → Prop).
Hypothesis P_attr : ∀ msg, P (AttributeError msg).

Lemma raises_only_bind {A B} (m : M A) (f : A → M B) :
  raises_only P m → (∀ a, raises_only P (f a)) → raises_only P (m ≫= f).
Proof.
  intros Hm Hf st e. rewrite bind_run.
  specialize (Hm st). destruct (m st) as [[a|e'] st']; cbn in *.
  - apply Hf.
  - intros [= <-]. apply Hm. reflexivity.
Qed.

Lemma raises_only_ret {A} (a : A) : raises_only P (mret a).
Proof. intros st e [=]. Qed.

Lemma raises_only_gets {A} (p : World → A) : raises_only P (gets p).
Proof. intros st e [=]. Qed.

Lemma raises_only_modify (p : World → World) : raises_only P (modify p).
Proof. intros st e [=]. Qed.

Lemma raises_only_raise {A} (e : exn) : P e → raises_only P (raise e : M A).
Proof. intros He st e' [= <-]. exact He. Qed.

Lemma raises_only_get_obj (self : nat) : raises_only P (get_obj self).
Proof.
  intros st e. unfold get_obj. destruct (heap st !! self); intros [= <-]. apply P_attr.
Qed.

Lemma raises_only_getattr {A} (name : string) (proj : Obj → option A) (self : nat) :
  raises_only P (getattr name proj self).
Proof.
  unfold getattr. apply raises_only_bind; [apply raises_only_get_obj|].
  intros o. destruct (proj o); [apply raises_only_ret | apply raises_only_raise, P_attr].
Qed.

Lemma raises_only_update_obj (self : nat) (f : Obj → Obj) :
  raises_only P (update_obj self f).
Proof.
  unfold update_obj. apply raises_only_bind; [apply raises_only_get_obj|].
  intros o. apply raises_only_modify.
Qed.

End Raises.

Create HintDb methods.

#[local] Hint Unfold
  text_setText text_setVisible input_setVisible input_connect set_control emit
  get_spin get_line get_time get_combo as_c_int
  QClickEdit__addSuffix QClickEdit__showInputField QClickEdit__showText
  QClickEdit__freezeInputPrecheck QClickEdit__topWidgetMousePressEvent
  QClickEdit__setToEdit QClickEdit__createInputWidget QWidget_focusOutEvent
  QClickEdit_focusOutEvent
  QSpinBox__updateCurrentValue QSpinBox__createInputWidget QSpinBox_getValue
  SpinBox_call_setValue QSpinBox_setValue
  QLineEdit__updateCurrentValue QLineEdit__createInputWidget QLineEdit_getValue
  LineEdit_call_setText QLineEdit_setValue
  call_toString QTimeEdit__updateCurrentValue QTimeEdit__createInputWidget
  TimeEdit_call_setDisplayFormat QTimeEdit__setToEdit QTimeEdit__inputCheck
  QTimeEdit_getValue TimeEdit_call_setTime QTimeEdit_setValue QTimeEdit_setDisplayFormat
  QComboBox__updateCurrentValue QComboBox__createInputWidget QComboBox__inputCheck
  QComboBox_getValue ComboBox_call_setCurrentIndex ComboBox_call_addItem
  QComboBox_setValue QComboBox_setIndex QComboBox_getCurrentIndex QComboBox_addItem
  getValue setValue _createInputWidget _setToEdit QClickEdit__createTextWidget
  get_mousePressEvent : methods.

(** The structural part of a proof of [raises_only]: through binds,
    branches and the primitive accesses, down to the [raise] leaves. *)
Ltac raises_only_tac leaf :=
  repeat first
    [ apply raises_only_ret
    | apply raises_only_gets
    | apply raises_only_modify
    | apply raises_only_get_obj; leaf
    | apply raises_only_getattr; leaf
    | apply raises_only_update_obj; leaf
    | apply raises_only_raise; leaf
    | apply raises_only_bind; [|intro]
    | match goal with
      | |- raises_only _ (if ?b then _ else _) => destruct b
      | |- raises_only _ (match ?x with _ => _ end) => destruct x
      end
    | progress autounfold with methods ].

Lemma not_check_error_attr (msg : string) : ¬ check_error (AttributeError msg).
Proof. intros [H|H]; discriminate H. Qed.

Ltac not_check_error :=
  solve [ intros; apply not_check_error_attr
        | intros; intros [H|H]; revert H; unfold msg_prefix, msg_suffix, msg_time;
          congruence ].

Lemma patch_loop_raises_nothing (P : exn → Prop) (self : nat) (l : list nat) :
  raises_only P (patch_loop self l).
Proof.
  induction l as [|tw l IH]; cbn [patch_loop].
  - apply raises_only_ret.
  - apply raises_only_bind; [apply raises_only_gets|]. intros modified.
    destruct (bool_decide _); [exact IH|].
    apply raises_only_bind; [apply raises_only_modify|]. intros _.
    apply raises_only_bind; [apply raises_only_gets|]. intros h.
    apply raises_only_bind; [apply raises_only_modify|]. intros _. exact IH.
Qed.

(** ** The argument checks of the base constructor *)

(** C7. [QClickEdit.__init__] raises the TypeError of its prefix check
    or of its suffix check exactly when [type_of_field] is neither a
    string nor [False], or [suffix] is neither a string nor [False]; the
    world is then untouched.  With valid arguments whatever the rest of
    the constructor raises is not one of these two errors. *)
Theorem QClickEdit___init___checks (self : nat) (v p s : pyval) (st : World) :
  check_error_raised (QClickEdit___init__ self v p s st) st
  ↔ isinstance_str p || is_False p = false ∨ isinstance_str s || is_False s = false.
Proof.
  unfold check_error_raised, QClickEdit___init__.
  destruct (isinstance_str p || is_False p) eqn:Hp; cbn [negb].
  2:{ rewrite raise_bind_run. cbn. split; [auto|]. intros _. split; [left|]; reflexivity. }
  rewrite ret_bind_run.
  destruct (isinstance_str s || is_False s) eqn:Hs; cbn [negb].
  2:{ rewrite raise_bind_run. cbn. split; [auto|]. intros _. split; [right|]; reflexivity. }
  rewrite ret_bind_run.
  split; [|intros [H|H]; discriminate H].
  intros [H _]. exfalso. revert H.
  match goal with |- context [fst (?m st)] => set (rest := m) end.
  assert (Hrest : raises_only (λ e, ¬ check_error e) rest).
  { subst rest. raises_only_tac not_check_error. apply patch_loop_raises_nothing. }
  intros H. destruct (fst (rest st)) as [a|e] eqn:E.
  - destruct H as [H|H]; discriminate H.
  - apply (Hrest st e E). destruct H as [H|H]; injection H as ->; [left|right]; reflexivity.
Qed.

(** ** setValue, then getValue *)

Lemma ready_widgets (o : Obj) :
  ready o = true → ∃ i b, input_widget o = Some i ∧ text o = Some b.
Proof.
  unfold ready. destruct (input_widget o) as [i|]; [|discriminate].
  destruct (text o) as [b|]; [|discriminate]. eauto.
Qed.



Ltac mcase :=
  match goal with
  | |- context [if ?b then _ else _] => destruct b eqn:?
  end.



(** ** The sweep *)

Lemma ready_hide_input (o : Obj) : ready (hide_input o) = ready o.
Proof. destruct o as [? ? ? ? ? ? [[]|] ?]; reflexivity. Qed.

Lemma ready_show_label (o : Obj) : ready (show_label o) = ready o.
Proof. destruct o as [? ? ? ? ? ? ? [[]|]]; reflexivity. Qed.

Lemma ready_collapse (o : Obj) : ready (collapse o) = ready o.
Proof.
  unfold collapse. destruct (input_widget o) as [i|]; [|reflexivity].
  destruct (_ && _); [|reflexivity]. rewrite ready_show_label. apply ready_hide_input.
Qed.

Lemma ready_to_input (o : Obj) : ready (to_input o) = ready o.
Proof. destruct o as [? ? ? ? ? ? [[]|] [[]|]]; reflexivity. Qed.

Lemma collapse_idemp (o : Obj) : collapse (collapse o) = collapse o.
Proof.
  destruct o as [? ? ? ? ? ? [[k [] [] conn]|] [[]|]]; reflexivity.
Qed.

Lemma input_setVisible_run (w : nat) (v : bool) (st : World) (o : Obj) (i : Input) :
  heap st !! w = Some o → input_widget o = Some i →
  input_setVisible w v st
  = (Ok tt, set_heap (<[w := set_input_widget
                               (MkInput (in_control i) v (in_underMouse i) (in_connected i)) o]>
                        (heap st)) st).
Proof.
  intros H Hi. unfold input_setVisible.
  rewrite bind_run, (getattr_run _ _ _ _ _ H), Hi. apply (update_obj_run _ _ _ _ H).
Qed.

Lemma text_setVisible_run (w : nat) (v : bool) (st : World) (o : Obj) (b : Button) :
  heap st !! w = Some o → text o = Some b →
  text_setVisible w v st
  = (Ok tt, set_heap (<[w := set_text (MkButton (b_text b) v) o]> (heap st)) st).
Proof.
  intros H Hb. unfold text_setVisible.
  rewrite bind_run, (getattr_run _ _ _ _ _ H), Hb. apply (update_obj_run _ _ _ _ H).
Qed.

Lemma showText_run (w : nat) (st : World) (o : Obj) :
  heap st !! w = Some o → ready o = true →
  QClickEdit__showText w st
  = (Ok tt, set_heap (<[w := show_label (hide_input o)]> (heap st)) st).
Proof.
  intros H Hr. destruct (ready_widgets _ Hr) as (i & b & Hi & Hb).
  unfold QClickEdit__showText.
  rewrite bind_run, (input_setVisible_run _ _ _ _ _ H Hi).
  erewrite text_setVisible_run;
    [|rewrite heap_set_heap; apply lookup_insert_eq | cbn [text set_input_widget]; exact Hb].
  rewrite heap_set_heap, set_heap_set_heap, insert_insert_eq.
  unfold hide_input, show_label. rewrite Hi. cbn [text set_input_widget]. rewrite Hb.
  reflexivity.
Qed.

Lemma showInputField_run (w : nat) (st : World) (o : Obj) :
  heap st !! w = Some o → ready o = true →
  QClickEdit__showInputField w st
  = (Ok tt, set_heap (<[w := to_input o]> (heap st)) st).
Proof.
  intros H Hr. destruct (ready_widgets _ Hr) as (i & b & Hi & Hb).
  unfold QClickEdit__showInputField.
  rewrite bind_run, (text_setVisible_run _ _ _ _ _ H Hb).
  erewrite input_setVisible_run;
    [|rewrite heap_set_heap; apply lookup_insert_eq | cbn [input_widget set_text]; exact Hi].
  rewrite heap_set_heap, set_heap_set_heap, insert_insert_eq.
  unfold to_input. rewrite Hi, Hb. reflexivity.
Qed.

Lemma alter_lookup_insert (f : Obj → Obj) (w : nat) (h : gmap nat Obj) (o : Obj) :
  h !! w = Some o → alter f w h = <[w := f o]> h.
Proof.
  intros H. apply map_eq. intros j. rewrite lookup_alter, lookup_insert.
  case_decide; [subst j; rewrite H|]; reflexivity.
Qed.

Lemma sweep_heap_lookup (reg : list nat) (h : gmap nat Obj) (w : nat) :
  sweep_heap reg h !! w = if decide (w ∈ reg) then collapse <$> h !! w else h !! w.
Proof.
  revert h. induction reg as [|w0 reg IH]; intros h; cbn [sweep_heap fold_left].
  - rewrite decide_False by apply not_elem_of_nil. reflexivity.
  - fold (sweep_heap reg (alter collapse w0 h)). rewrite IH, lookup_alter.
    destruct (decide (w0 = w)) as [->|Hne].
    + rewrite (decide_True (P := w ∈ w :: reg)) by apply list_elem_of_here.
      destruct (decide (w ∈ reg)); [|reflexivity].
      destruct (h !! w); cbn; [rewrite collapse_idemp|]; reflexivity.
    + destruct (decide (w ∈ reg)) as [Hin|Hnin].
      * rewrite decide_True by (apply list_elem_of_further, Hin). reflexivity.
      * rewrite decide_False; [reflexivity|].
        intros [?|?]%elem_of_cons; [congruence|contradiction].
Qed.

(** The loop of [_freezeInputPrecheck] returns, and computes the sweep. *)
Lemma freeze_loop_run (reg : list nat) (st : World) :
  (∀ w, w ∈ reg → ∃ o, heap st !! w = Some o ∧ ready o = true) →
  freeze_loop reg st = (Ok tt, set_heap (sweep_heap reg (heap st)) st).
Proof.
  revert st. induction reg as [|w0 reg IH]; intros st Hreg; cbn [freeze_loop sweep_heap fold_left].
  - rewrite set_heap_id. reflexivity.
  - destruct (Hreg w0) as (o & H & Hr); [apply list_elem_of_here|].
    destruct (ready_widgets _ Hr) as (i & b & Hi & Hb).
    fold (sweep_heap reg (alter collapse w0 (heap st))).
    rewrite (alter_lookup_insert _ _ _ _ H).
    rewrite bind_run, (getattr_run _ _ _ _ _ H), Hi.
    unfold collapse at 1. rewrite Hi.
    destruct (in_visible i && negb (in_underMouse i)) eqn:Hc.
    + rewrite bind_run, (showText_run _ _ _ H Hr).
      rewrite IH.
      * rewrite heap_set_heap, set_heap_set_heap. reflexivity.
      * intros w Hw. destruct (Hreg w) as (o' & H' & Hr'); [apply list_elem_of_further, Hw|].
        rewrite heap_set_heap. destruct (decide (w0 = w)) as [<-|Hne].
        -- rewrite lookup_insert_eq. eexists; split; [reflexivity|].
           rewrite ready_show_label, ready_hide_input. exact Hr.
        -- rewrite lookup_insert_ne by exact Hne. eauto.
    + rewrite ret_bind_run. rewrite (insert_id _ _ _ H).
      apply IH. intros w Hw. apply Hreg, list_elem_of_further, Hw.
Qed.

Lemma freezeInputPrecheck_run (self : nat) (st : World) :
  wf st → QClickEdit__freezeInputPrecheck self st = (Ok tt, sweep st).
Proof.
  intros (_ & Hreg & _). unfold QClickEdit__freezeInputPrecheck.
  rewrite gets_bind_run. apply freeze_loop_run, Hreg.
Qed.

Lemma sweep_lookup (st : World) (w : nat) :
  wf st → heap (sweep st) !! w = collapse <$> heap st !! w.
Proof.
  intros (_ & _ & Hun). unfold sweep. rewrite heap_set_heap, sweep_heap_lookup.
  destruct (decide (w ∈ _registry st)) as [|Hnin]; [reflexivity|].
  destruct (heap st !! w) as [o|] eqn:H; [|reflexivity].
  destruct (Hun w o H Hnin) as [Hi _]. cbn. unfold collapse. rewrite Hi. reflexivity.
Qed.

(** ** Focus loss *)

Lemma wf_registered (st : World) (w : nat) :
  wf st → w ∈ _registry st → ∃ o, heap st !! w = Some o ∧ ready o = true.
Proof. intros (_ & Hreg & _). apply Hreg. Qed.

Lemma focusOut_run (self : nat) (st : World) :
  wf st → self ∈ _registry st → deliver_focusOut self st = (Ok tt, sweep st).
Proof.
  intros Hwf Hin. destruct (wf_registered _ _ Hwf Hin) as (o & H & Hr).
  destruct (ready_widgets _ Hr) as (i & b & Hi & Hb).
  unfold deliver_focusOut. rewrite bind_run, (getattr_run _ _ _ _ _ H), Hi.
  unfold QClickEdit_focusOutEvent, QWidget_focusOutEvent. rewrite ret_bind_run.
  apply freezeInputPrecheck_run, Hwf.
Qed.

(** C3, as amended. A registered widget in input mode whose input
    widget loses focus while the pointer is not over it returns to label
    mode.  The event does not write the label text nor the control: the
    label shows the value of the control, with the suffix, if it did
    before. *)
Theorem focusOut_returns_to_label (self : nat) (st : World) :
  wf st → self ∈ _registry st →
  input_visible st self = true → under_mouse st self = false →
  ∃ st', deliver_focusOut self st = (Ok tt, st')
    ∧ input_visible st' self = false ∧ label_visible st' self = true
    ∧ label_text st' self = label_text st self
    ∧ input_control st' self = input_control st self
    ∧ (label_synced st self → label_synced st' self).
Proof.
  intros Hwf Hin Hvis Hum. exists (sweep st). split; [apply focusOut_run; assumption|].
  destruct (wf_registered _ _ Hwf Hin) as (o & H & Hr).
  unfold input_visible, label_visible, label_text, input_control, under_mouse, label_synced in *.
  rewrite (sweep_lookup _ _ Hwf), H in *. cbn [fmap option_fmap option_map mbind option_bind].
  destruct o as [c wk cv df sfx pl [[k vis um conn]|] [[t bv]|]]; try discriminate Hr.
  cbn in Hvis, Hum. subst vis um. cbn.
  repeat split; try reflexivity.
  intros (o' & [= <-] & Hs & Ht). eexists; split; [reflexivity|].
  split; [exact Hs | exact Ht].
Qed.

(** ** Label activation *)

Lemma ready_time (o : Obj) :
  ready o = true → cls o = QTimeEdit →
  ∃ i b c f, input_widget o = Some i ∧ text o = Some b ∧ in_control i = CTime c
             ∧ _display_format o = Some f.
Proof.
  unfold ready. intros Hr Hc. rewrite Hc in Hr.
  destruct (input_widget o) as [i|]; [|discriminate].
  destruct (text o) as [b|]; [|discriminate].
  destruct (suffix o) as [sfx|]; [|discriminate].
  apply andb_prop in Hr as [Hr Hf]. apply andb_prop in Hr as [Hk _].
  destruct (in_control i) as [| |c|] eqn:Ek; try discriminate Hk.
  destruct (_display_format o) as [f|]; [|discriminate].
  exists i, b, c, f. auto.
Qed.

Lemma setToEdit_base_run (self : nat) (st : World) (o : Obj) :
  wf st → heap st !! self = Some o → ready o = true →
  QClickEdit__setToEdit self st
  = (Ok tt, set_heap (<[self := to_input (collapse o)]> (heap (sweep st))) st).
Proof.
  intros Hwf H Hr. unfold QClickEdit__setToEdit.
  rewrite bind_run, (freezeInputPrecheck_run _ _ Hwf).
  erewrite showInputField_run;
    [|rewrite (sweep_lookup _ _ Hwf), H; reflexivity | rewrite ready_collapse; exact Hr].
  reflexivity.
Qed.

Lemma setToEdit_run (self : nat) (st : World) (o : Obj) :
  wf st → heap st !! self = Some o → ready o = true →
  _setToEdit self st
  = (Ok tt, set_heap (<[self := activated o]> (heap (sweep st))) st).
Proof.
  intros Hwf H Hr. unfold _setToEdit, activated.
  rewrite bind_run, (get_obj_run _ _ _ H).
  destruct (cls o) eqn:Hc; try (apply setToEdit_base_run; assumption).
  unfold QTimeEdit__setToEdit.
  rewrite bind_run, (setToEdit_base_run _ _ _ Hwf H Hr).
  generalize (heap (sweep st)). intros h.
  destruct (ready_time _ Hr Hc) as (i & b & k & f & Hi & Hb & Hk & Hf).
  destruct o as [c wk cv df sfx pl iw tx]. destruct i as [k' vis um conn].
  cbn in Hc, Hi, Hb, Hk, Hf. subst c iw tx k' df.
  unfold collapse, to_input, apply_format, show_label, hide_input, TimeEdit_call_setDisplayFormat.
  autounfold with methods.
  cbn [input_widget in_visible in_underMouse].
  destruct (vis && negb um); mrun; reflexivity.
Qed.


(** ** Construction *)

Ltac mcase_var :=
  match goal with
  | |- context [match ?x with _ => _ end] => is_var x; destruct x
  end.

Ltac mfinish :=
  eexists _, _; split; [reflexivity|]; repeat split.

(** [setValue] on a constructed widget touches that widget only, and
    neither what it shows nor its being constructed, whether it returns or
    raises. *)
Lemma setValue_same_mode (n : nat) (v : pyval) (o : Obj) (h : gmap nat Obj) (st : World) :
  ready o = true →
  ∃ r o', setValue n v (set_heap (<[n := o]> h) st) = (r, set_heap (<[n := o']> h) st)
          ∧ same_mode o o'.
Proof.
  intros Hr.
  destruct o as [c wk cv df sfx pl [[k vis um conn]|] [[t bv]|]]; try discriminate Hr.
  destruct sfx as [sfx|]; [|discriminate Hr].
  unfold ready in Hr; cbn in Hr.
  apply andb_prop in Hr as [Hr Hdf]. apply andb_prop in Hr as [Hc Hs].
  unfold same_mode, ready. unfold setValue. mrun.
  destruct c, k; try discriminate Hc; clear Hc; autounfold with methods.
  all: destruct sfx as [s| |[]| | | | |]; try discriminate Hs;
    repeat first [progress mrun | progress cbn [truthy] | mcase_var | mcase]; mfinish.
Qed.

Lemma registry_set_heap (h : gmap nat Obj) (st : World) :
  _registry (set_heap h st) = _registry st.
Proof. reflexivity. Qed.

Lemma topLevelWidgets_set_heap (h : gmap nat Obj) (st : World) :
  topLevelWidgets (set_heap h st) = topLevelWidgets st.
Proof. reflexivity. Qed.

Lemma set_registry_set_heap (r : list nat) (h : gmap nat Obj) (st : World) :
  set_registry r (set_heap h st) = set_heap h (set_registry r st).
Proof. reflexivity. Qed.

(** The loop over the top-level widgets returns; it writes the two
    handler fields only, and keeps them [patched]. *)
Lemma patch_loop_run (self : nat) (l : list nat) (st : World) :
  ∃ m p, patch_loop self l st
         = (Ok tt, set_mousePressEvent p (set_top_widgets_modified m st))
         ∧ (patched st → patched (set_mousePressEvent p (set_top_widgets_modified m st))).
Proof.
  revert st. induction l as [|tw l IH]; intros st; cbn [patch_loop].
  - exists (_top_widgets_modified st), (mousePressEvent st).
    split; [destruct st; reflexivity|]. destruct st; intros H; exact H.
  - rewrite gets_bind_run. destruct (bool_decide (tw ∈ _top_widgets_modified st)) eqn:Hd.
    + apply IH.
    + apply bool_decide_eq_false in Hd.
      rewrite modify_bind_run. unfold get_mousePressEvent.
      rewrite gets_bind_run, modify_bind_run.
      match goal with |- context [patch_loop self l ?s] => set (st1 := s) end.
      destruct (IH st1) as (m & p & E & Hp). exists m, p. split; [rewrite E; reflexivity|].
      intros Hst. apply Hp. clear Hp E IH.
      intros tw'. subst st1. cbn. destruct (Hst tw') as [Hin Hout].
      destruct (decide (tw = tw')) as [<-|Hne].
      * rewrite lookup_insert_eq. split; [|intros Hn; destruct Hn; apply elem_of_app; right; apply list_elem_of_here].
        intros _. exists self. destruct (Hst tw) as [_ Hout']. rewrite (Hout' Hd). reflexivity.
      * rewrite lookup_insert_ne by exact Hne. split.
        -- intros [H|H]%elem_of_app; [apply Hin, H|].
           apply elem_of_cons in H as [H|H]; [congruence|]. destruct (not_elem_of_nil _ H).
        -- intros Hn. apply Hout. intros H. apply Hn, elem_of_app. left. exact H.
Qed.

Lemma same_mode_fresh (o o' : Obj) : fresh_widget o → same_mode o o' → fresh_widget o'.
Proof.
  intros [Hr Hv] (_ & Hr' & Hv' & _). split; [congruence|].
  destruct (input_widget o), (input_widget o'); cbn in *; congruence.
Qed.

(** The base constructor, on an object that has its [widget_] and, for
    a QTimeEdit, its display format.  It stops at a check, the world
    untouched; or it registers the object and creates its sub-widgets,
    the input widget hidden, and then either [setValue] raises or the
    handlers are patched. *)
Lemma QClickEdit___init___run (n : nat) (v p s : pyval) (o : Obj) (h : gmap nat Obj)
    (st : World) :
  bare o → widget_ o = Some (host_class_of (cls o)) →
  (cls o = QTimeEdit → is_Some (_display_format o)) →
  ∃ r o' st',
    QClickEdit___init__ n v p s (set_heap (<[n := o]> h) st)
    = (r, set_heap (<[n := o']> h) st')
    ∧ next_id st' = next_id st ∧ topLevelWidgets st' = topLevelWidgets st
    ∧ cls o' = cls o
    ∧ (patched st → patched st')
    ∧ ((_registry st' = _registry st ∧ bare o' ∧ ∃ e, r = Raise e)
       ∨ (_registry st' = (_registry st ++ [n])%list ∧ fresh_widget o')).
Proof.
  intros [Hi Ht] Hw Hdf. unfold QClickEdit___init__.
  destruct (isinstance_str p || is_False p) eqn:Hp; cbn [negb].
  2:{ rewrite raise_bind_run. exists (Raise (TypeError msg_prefix)), o, st.
      do 4 (split; [reflexivity|]). split; [auto|]. left. repeat split; eauto. }
  rewrite ret_bind_run.
  destruct (isinstance_str s || is_False s) eqn:Hs; cbn [negb].
  2:{ rewrite raise_bind_run. exists (Raise (TypeError msg_suffix)), o, st.
      do 4 (split; [reflexivity|]). split; [auto|]. left. repeat split; eauto. }
  rewrite ret_bind_run.
  destruct o as [c wk cv df sfx pl iw tx]. cbn in Hi, Ht, Hw, Hdf. subst iw tx wk.
  match goal with
  | |- context [setValue n v ≫= ?k] => set (rest := setValue n v ≫= k)
  end.
  assert (Hrest : ∀ o1 st1, fresh_widget o1 →
            ∃ r o' st', rest (set_heap (<[n := o1]> h) st1) = (r, set_heap (<[n := o']> h) st')
              ∧ next_id st' = next_id st1 ∧ topLevelWidgets st' = topLevelWidgets st1
              ∧ cls o' = cls o1 ∧ _registry st' = _registry st1
              ∧ fresh_widget o' ∧ (patched st1 → patched st')).
  { intros o1 st1 Ho1. subst rest.
    destruct (setValue_same_mode n v o1 h st1 (proj1 Ho1)) as (r & o2 & E & Hm).
    rewrite bind_run, E. destruct r as [[]|e].
    - rewrite gets_bind_run, topLevelWidgets_set_heap.
      destruct (patch_loop_run n (topLevelWidgets st1) (set_heap (<[n := o2]> h) st1))
        as (m & q & E' & Hq).
      rewrite E'. eexists _, o2, (set_mousePressEvent q (set_top_widgets_modified m st1)).
      split; [reflexivity|]. do 2 (split; [reflexivity|]).
      split; [apply Hm|]. split; [reflexivity|].
      split; [eapply same_mode_fresh; eassumption|]. exact Hq.
    - eexists _, o2, st1. split; [reflexivity|]. do 2 (split; [reflexivity|]).
      split; [apply Hm|]. split; [reflexivity|].
      split; [eapply same_mode_fresh; eassumption|]. auto. }
  clearbody rest.
  assert (Hfin : ∀ o1, fresh_widget o1 → cls o1 = c →
            ∃ r o' st',
              rest (set_heap (<[n := o1]> h) (set_registry (_registry st ++ [n])%list st))
              = (r, set_heap (<[n := o']> h) st')
              ∧ next_id st' = next_id st ∧ topLevelWidgets st' = topLevelWidgets st
              ∧ cls o' = c ∧ (patched st → patched st')
              ∧ ((_registry st' = _registry st ∧ bare o' ∧ ∃ e, r = Raise e)
                 ∨ (_registry st' = (_registry st ++ [n])%list ∧ fresh_widget o'))).
  { intros o1 Ho1 Hc1.
    destruct (Hrest o1 (set_registry (_registry st ++ [n])%list st) Ho1)
      as (r & o' & st' & E & Hn & Htl & Hc & Hreg & Hf & Hq).
    exists r, o', st'. split; [exact E|]. split; [exact Hn|]. split; [exact Htl|].
    split; [congruence|]. split; [intros Hst; apply Hq; exact Hst|].
    right. split; assumption. }
  clear Hrest.
  destruct p as [ps| |[]| | | | |]; try discriminate Hp; cbn [truthy];
    destruct s as [ss| |[]| | | | |]; try discriminate Hs;
    repeat first [progress mrun | mcase];
    rewrite ?registry_set_heap, ?set_registry_set_heap;
    unfold _createInputWidget; mrun.
  all: destruct c; autounfold with methods;
    repeat first [progress mrun | progress cbn [truthy host_new host_class_of] | mcase];
    try (destruct df as [f|]; [|destruct Hdf as [? [=]]; reflexivity]);
    repeat first [progress mrun | progress cbn [truthy host_new host_class_of] | mcase];
    (apply Hfin; [split; reflexivity | reflexivity]).
Qed.

Lemma same_mode_refl (o : Obj) : same_mode o o.
Proof. repeat split. Qed.

Lemma same_mode_trans (o1 o2 o3 : Obj) : same_mode o1 o2 → same_mode o2 o3 → same_mode o1 o3.
Proof.
  intros (H1 & H2 & H3 & H4) (H1' & H2' & H3' & H4'). repeat split; congruence.
Qed.

Lemma ComboBox_call_addItem_same_mode (n : nat) (item : string) (o : Obj) (h : gmap nat Obj)
    (st : World) :
  ∃ r o', ComboBox_call_addItem n item (set_heap (<[n := o]> h) st)
          = (r, set_heap (<[n := o']> h) st)
          ∧ same_mode o o'.
Proof.
  destruct o as [c wk cv df sfx pl [[k vis um conn]|] [[t bv]|]];
    unfold same_mode, ready; autounfold with methods;
    repeat first [progress mrun | mcase_var | mcase]; mfinish.
Qed.

Lemma addItem_loop_same_mode (n : nat) (items : list string) (o : Obj) (h : gmap nat Obj)
    (st : World) :
  ∃ r o', addItem_loop n items (set_heap (<[n := o]> h) st)
          = (r, set_heap (<[n := o']> h) st)
          ∧ same_mode o o'.
Proof.
  revert o. induction items as [|item items IH]; intros o; cbn [addItem_loop].
  - exists (Ok tt), o. split; [reflexivity | apply same_mode_refl].
  - destruct (ComboBox_call_addItem_same_mode n item o h st) as (r & o1 & E & Hm).
    rewrite bind_run, E. destruct r as [[]|e].
    + destruct (IH o1) as (r' & o2 & E' & Hm'). exists r', o2.
      split; [exact E' | eapply same_mode_trans; eassumption].
    + exists (Raise e), o1. split; [reflexivity | exact Hm].
Qed.

(** The outcome of a construction: the new object is the only one
    written; it is registered exactly when its sub-widgets have been
    created, and it is then in label mode. *)
Lemma construct_run (c : call) (st : World) :
  ∃ r o st',
    construct c st = (r, set_heap (<[next_id st := o]> (heap st)) st')
    ∧ next_id st' = S (next_id st) ∧ topLevelWidgets st' = topLevelWidgets st
    ∧ (patched st → patched st')
    ∧ ((_registry st' = _registry st ∧ bare o)
       ∨ (_registry st' = (_registry st ++ [next_id st])%list ∧ fresh_widget o)).
Proof.
  unfold construct. rewrite bind_run. unfold new at 1. cbv match.
  change (set_next_id (S (next_id st)) (set_heap (<[next_id st:=Obj_new (class_of c)]> (heap st)) st))
    with (set_heap (<[next_id st:=Obj_new (class_of c)]> (heap st)) (set_next_id (S (next_id st)) st)).
  set (n := next_id st). set (h := heap st). set (st0 := set_next_id (S n) st).
  assert (Hbase : ∀ v p s o (k : unit → M nat),
            bare o → widget_ o = Some (host_class_of (cls o)) →
            (cls o = QTimeEdit → is_Some (_display_format o)) →
            (∀ o1 st1, ∃ r o', k tt (set_heap (<[n := o1]> h) st1)
                               = (r, set_heap (<[n := o']> h) st1)
                               ∧ same_mode o1 o') →
            ∃ r o' st',
              (QClickEdit___init__ n v p s ≫= k) (set_heap (<[n := o]> h) st0)
              = (r, set_heap (<[n := o']> h) st')
              ∧ next_id st' = S n ∧ topLevelWidgets st' = topLevelWidgets st
              ∧ (patched st → patched st')
              ∧ ((_registry st' = _registry st ∧ bare o')
                 ∨ (_registry st' = (_registry st ++ [n])%list ∧ fresh_widget o'))).
  { intros v p s o k Hb Hw Hdf Hk.
    destruct (QClickEdit___init___run n v p s o h st0 Hb Hw Hdf)
      as (r & o' & st' & E & Hn & Htl & Hc & Hq & Hcases).
    rewrite bind_run, E. destruct r as [[]|e].
    - destruct (Hk o' st') as (r2 & o2 & E2 & Hm). rewrite E2.
      exists r2, o2, st'. split; [reflexivity|]. split; [exact Hn|]. split; [exact Htl|].
      split; [exact Hq|].
      destruct Hcases as [(_ & _ & e & [=])|[Hreg Hf]].
      right. split; [exact Hreg | eapply same_mode_fresh; eassumption].
    - exists (Raise e), o', st'. split; [reflexivity|]. split; [exact Hn|].
      split; [exact Htl|]. split; [exact Hq|].
      destruct Hcases as [(Hreg & Hb' & _)|Hr]; [left; split; assumption | right; exact Hr]. }
  assert (Hret : ∀ o1 st1, ∃ r o', (mret n : M nat) (set_heap (<[n := o1]> h) st1)
                                   = (r, set_heap (<[n := o']> h) st1) ∧ same_mode o1 o').
  { intros o1 st1. exists (Ok n), o1. split; [reflexivity | apply same_mode_refl]. }
  assert (Hstop : ∀ (e : exn) o, bare o →
            ∃ r o' st', (Raise e : res nat, set_heap (<[n := o]> h) st0)
                        = (r, set_heap (<[n := o']> h) st')
              ∧ next_id st' = S n ∧ topLevelWidgets st' = topLevelWidgets st
              ∧ (patched st → patched st')
              ∧ ((_registry st' = _registry st ∧ bare o')
                 ∨ (_registry st' = (_registry st ++ [n])%list ∧ fresh_widget o'))).
  { intros e o Hb. exists (Raise e), o, st0. split; [reflexivity|].
    do 2 (split; [reflexivity|]). split; [auto|]. left. split; [reflexivity | exact Hb]. }
  destruct c as [v p s|v p s|v p f|items]; cbn [class_of __init__].
  - unfold QSpinBox___init__. mrun.
    apply Hbase; [split; reflexivity | reflexivity | discriminate | exact Hret].
  - unfold QLineEdit___init__. mrun.
    apply Hbase; [split; reflexivity | reflexivity | discriminate | exact Hret].
  - unfold QTimeEdit___init__, QTimeEdit__inputCheck.
    destruct v as [| |[]| | | |d|q]; mrun;
      try (apply Hstop; split; reflexivity);
      (apply Hbase; [split; reflexivity | reflexivity | intros _; eexists; reflexivity
                    | exact Hret]).
  - unfold QComboBox___init__, QComboBox__inputCheck.
    assert (Hk : ∀ l o1 st1, ∃ r o',
              (addItem_loop n l ≫= λ _, mret n) (set_heap (<[n := o1]> h) st1)
              = (r, set_heap (<[n := o']> h) st1) ∧ same_mode o1 o').
    { intros l o1 st1. destruct (addItem_loop_same_mode n l o1 h st1) as (r & o' & E & Hm).
      rewrite bind_run, E. destruct r as [[]|e]; eexists _, o'; (split; [reflexivity|exact Hm]). }
    destruct items as [| | | |[|v0 l]| | |]; mrun;
      try (apply Hstop; split; reflexivity);
      (apply Hbase; [split; reflexivity | reflexivity | discriminate | apply Hk]).
Qed.

(** ** Well-formedness along the events *)

Lemma wf_World_new : wf World_new.
Proof.
  split; [|split].
  - intros w o H. cbn in H. rewrite lookup_empty in H. discriminate.
  - intros w H. destruct (not_elem_of_nil _ H).
  - intros w o H. cbn in H. rewrite lookup_empty in H. discriminate.
Qed.

Lemma morph_refl (st : World) : morph st st.
Proof.
  split; [reflexivity|]. split; [reflexivity|]. intros w. destruct (heap st !! w); [|exact I]. split; auto.
Qed.

Lemma morph_wf (st st' : World) : wf st → morph st st' → wf st'.
Proof.
  intros (Hf & Hreg & Hun) (Hn & Hr & Hobj). split; [|split].
  - intros w o' H'. rewrite Hn. specialize (Hobj w). rewrite H' in Hobj.
    destruct (heap st !! w) as [o|] eqn:H; [|contradiction]. eapply Hf, H.
  - intros w Hin. rewrite Hr in Hin. destruct (Hreg w Hin) as (o & H & Hrd).
    specialize (Hobj w). rewrite H in Hobj.
    destruct (heap st' !! w) as [o'|]; [|contradiction].
    exists o'. split; [reflexivity|]. destruct Hobj as [-> _]. exact Hrd.
  - intros w o' H H1. specialize (Hobj w). rewrite H in Hobj.
    destruct (heap st !! w) as [o0|] eqn:H0; [|contradiction].
    rewrite Hr in H1. destruct Hobj as [_ Hb]. apply Hb, (Hun w o0 H0 H1).
Qed.

Lemma same_kind_collapse (o : Obj) : same_kind o (collapse o).
Proof.
  split; [apply ready_collapse|]. intros [Hi Ht]. unfold collapse. rewrite Hi. split; assumption.
Qed.

Lemma same_kind_activated (o : Obj) : ready o = true → same_kind o (activated o).
Proof.
  intros Hr. split.
  - unfold activated. destruct (cls o) eqn:Hc; rewrite ?ready_to_input, ?ready_collapse;
      try reflexivity.
    rewrite <- (ready_collapse o) in Hr. rewrite <- (ready_to_input (collapse o)) in Hr.
    assert (Hc' : cls (to_input (collapse o)) = QTimeEdit).
    { destruct o as [? ? ? ? ? ? [[? [] [] ?]|] [[]|]]; exact Hc. }
    rewrite <- (ready_collapse o), <- (ready_to_input (collapse o)).
    generalize dependent (to_input (collapse o)). intros o1 Hr1 Hc1.
    destruct (ready_time _ Hr1 Hc1) as (i & b & c & f & Hi & Hb & Hk & Hf).
    unfold apply_format. rewrite Hi, Hf, Hk.
    destruct o1 as [? ? ? ? ? ? ? ?]. cbn in *. subst. destruct i. cbn in *. subst.
    reflexivity.
  - intros [Hi Ht]. destruct (ready_widgets _ Hr) as (i & _ & Hi' & _). congruence.
Qed.

Lemma sweep_morph (st : World) : wf st → morph st (sweep st).
Proof.
  intros Hwf. split; [reflexivity|]. split; [reflexivity|].
  intros w. rewrite (sweep_lookup _ _ Hwf).
  destruct (heap st !! w); cbn; [apply same_kind_collapse|exact I].
Qed.

Lemma sweep_visible (st : World) (w : nat) :
  wf st → input_visible (sweep st) w = input_visible st w && under_mouse st w.
Proof.
  intros Hwf. unfold input_visible, under_mouse. rewrite (sweep_lookup _ _ Hwf).
  destruct (heap st !! w) as [[? ? ? ? ? ? [[k [] [] conn]|] [[]|]]|]; reflexivity.
Qed.

Lemma sweep_quieter (st : World) : wf st → quieter st (sweep st).
Proof.
  intros Hwf w. rewrite (sweep_visible _ _ Hwf). intros [H _]%andb_prop. exact H.
Qed.

(** An object with a sub-widget is registered. *)
Lemma wf_has_text (st : World) (w : nat) (o : Obj) (b : Button) :
  wf st → heap st !! w = Some o → text o = Some b → w ∈ _registry st.
Proof.
  intros (_ & _ & Hun) H Hb. destruct (decide (w ∈ _registry st)) as [|Hn]; [assumption|].
  destruct (Hun w o H Hn) as [_ Ht]. congruence.
Qed.

Lemma wf_has_input (st : World) (w : nat) (o : Obj) (i : Input) :
  wf st → heap st !! w = Some o → input_widget o = Some i → w ∈ _registry st.
Proof.
  intros (_ & _ & Hun) H Hi. destruct (decide (w ∈ _registry st)) as [|Hn]; [assumption|].
  destruct (Hun w o H Hn) as [Hi' _]. congruence.
Qed.


(** What a click on a label does, in a well-formed world. *)
Lemma deliver_clicked_run (w : nat) (st : World) :
  wf st →
  snd (deliver_clicked w st) = st
  ∨ ∃ o, heap st !! w = Some o ∧ ready o = true
         ∧ snd (deliver_clicked w st)
           = set_heap (<[w := activated o]> (heap (sweep st))) st.
Proof.
  intros Hwf. unfold deliver_clicked. rewrite bind_run. unfold getattr. rewrite bind_run.
  unfold get_obj. destruct (heap st !! w) as [o|] eqn:H; [|left; reflexivity].
  destruct (text o) as [b|] eqn:Hb; [|left; reflexivity].
  cbn [mret M_ret]. right.
  destruct (wf_registered _ _ Hwf (wf_has_text _ _ _ _ Hwf H Hb)) as (o' & H' & Hr).
  rewrite H in H'. injection H' as <-.
  exists o. split; [reflexivity|]. split; [exact Hr|].
  rewrite (setToEdit_run _ _ _ Hwf H Hr). reflexivity.
Qed.

Lemma deliver_focusOut_run (w : nat) (st : World) :
  wf st → snd (deliver_focusOut w st) = st ∨ snd (deliver_focusOut w st) = sweep st.
Proof.
  intros Hwf. destruct (heap st !! w) as [o|] eqn:H.
  - destruct (input_widget o) as [i|] eqn:Hi.
    + right. rewrite (focusOut_run w st Hwf (wf_has_input _ _ _ _ Hwf H Hi)). reflexivity.
    + left. unfold deliver_focusOut. rewrite bind_run, (getattr_run _ _ _ _ _ H), Hi.
      reflexivity.
  - left. unfold deliver_focusOut, getattr, get_obj. rewrite !bind_run, H. reflexivity.
Qed.

Lemma pointer_run (w : nat) (over : bool) (st : World) :
  snd (pointer w over st) = st
  ∨ ∃ o i, heap st !! w = Some o ∧ input_widget o = Some i
           ∧ snd (pointer w over st)
             = set_heap (<[w := set_input_widget
                                  (MkInput (in_control i) (in_visible i) over (in_connected i)) o]>
                           (heap st)) st.
Proof.
  unfold pointer. destruct (heap st !! w) as [o|] eqn:H.
  - rewrite bind_run, (getattr_run _ _ _ _ _ H).
    destruct (input_widget o) as [i|] eqn:Hi; [|left; reflexivity].
    right. exists o, i. rewrite (update_obj_run _ _ _ _ H). auto.
  - left. unfold getattr, get_obj. rewrite !bind_run, H. reflexivity.
Qed.

Lemma construct_effect (c : call) (st : World) :
  wf st →
  wf (snd (construct c st))
  ∧ (∀ w, input_visible (snd (construct c st)) w = input_visible st w)
  ∧ (patched st → patched (snd (construct c st))).
Proof.
  intros Hwf. destruct (construct_run c st) as (r & o & st' & E & Hn & Htl & Hp & Hcases).
  rewrite E. cbn [snd].
  assert (Hnone : heap st !! next_id st = None).
  { destruct (heap st !! next_id st) as [o0|] eqn:H0; [|reflexivity].
    destruct Hwf as (Hf & _). specialize (Hf _ _ H0). lia. }
  assert (Hnreg : next_id st ∉ _registry st).
  { intros Hin. destruct (wf_registered _ _ Hwf Hin) as (o0 & H0 & _). congruence. }
  split; [|split].
  - destruct Hwf as (Hf & Hreg & Hun). split; [|split].
    + intros w o0. rewrite heap_set_heap. cbn [next_id set_heap].
      change (next_id (set_heap _ st')) with (next_id st'). rewrite Hn.
      destruct (decide (next_id st = w)) as [<-|Hne]; [lia|].
      rewrite lookup_insert_ne by exact Hne. intros H0. specialize (Hf _ _ H0). lia.
    + intros w. rewrite registry_set_heap, heap_set_heap. intros Hin.
      destruct Hcases as [[Hr Hb]|[Hr Hfresh]]; rewrite Hr in Hin.
      * destruct (Hreg w Hin) as (o0 & H0 & Hrd). exists o0.
        rewrite lookup_insert_ne by congruence. auto.
      * apply elem_of_app in Hin as [Hin|Hin].
        -- destruct (Hreg w Hin) as (o0 & H0 & Hrd). exists o0.
           rewrite lookup_insert_ne by congruence. auto.
        -- apply elem_of_cons in Hin as [->|Hin]; [|destruct (not_elem_of_nil _ Hin)].
           exists o. rewrite lookup_insert_eq. split; [reflexivity | apply Hfresh].
    + intros w o0. rewrite registry_set_heap, heap_set_heap.
      destruct (decide (next_id st = w)) as [<-|Hne].
      * rewrite lookup_insert_eq. intros [= <-] Hnin.
        destruct Hcases as [[Hr Hb]|[Hr Hfresh]]; [exact Hb|].
        destruct Hnin. rewrite Hr. apply elem_of_app. right. apply list_elem_of_here.
      * rewrite lookup_insert_ne by exact Hne. intros H0 Hnin. apply (Hun w o0 H0).
        intros Hin. apply Hnin.
        destruct Hcases as [[Hr _]|[Hr _]]; rewrite Hr; [exact Hin|].
        apply elem_of_app. left. exact Hin.
  - intros w. unfold input_visible. rewrite heap_set_heap.
    destruct (decide (next_id st = w)) as [<-|Hne].
    + rewrite lookup_insert_eq, Hnone.
      destruct Hcases as [[_ [Hi _]]|[_ [_ Hv]]]; [rewrite Hi; reflexivity|].
      destruct (input_widget o) as [i|]; cbn in Hv; [|reflexivity]. congruence.
    + rewrite lookup_insert_ne by exact Hne. reflexivity.
  - exact Hp.
Qed.

Section Events.

(** The handlers of the client leave the widgets alone. *)
Hypothesis client_handlers : ∀ tw ev st, snd (class_mousePressEvent tw ev st) = st.

Lemma call_handler_effect (h : handler) (ev : QEvent) (st : World) :
  wf st → wf (snd (call_handler h ev st)) ∧ quieter st (snd (call_handler h ev st)).
Proof.
  revert st. induction h as [tw|self parent h IH]; intros st Hwf; cbn [call_handler].
  - rewrite client_handlers. split; [exact Hwf | intros w H; exact H].
  - unfold QClickEdit__topWidgetMousePressEvent. rewrite bind_run.
    destruct (IH st Hwf) as [Hwf1 Hq1].
    destruct (call_handler h ev st) as [[[]|e] st1]; cbn [snd] in *.
    + rewrite (freezeInputPrecheck_run _ _ Hwf1). cbn [snd]. split.
      * eapply morph_wf; [exact Hwf1 | apply sweep_morph, Hwf1].
      * intros w H. apply Hq1, (sweep_quieter _ Hwf1), H.
    + split; assumption.
Qed.

(** Every action keeps the world well-formed. *)
Lemma step_wf (st : World) (a : action) : wf st → wf (step st a).
Proof.
  intros Hwf. unfold step. destruct a as [c|w|w|tw x y|w|w|l]; cbn [perform].
  - rewrite bind_run. destruct (construct_effect c st Hwf) as [H _].
    destruct (construct c st) as [[n|e] st']; exact H.
  - destruct (deliver_clicked_run w st Hwf) as [->|(o & H & Hr & ->)]; [exact Hwf|].
    eapply morph_wf; [exact Hwf|]. split; [reflexivity|]. split; [reflexivity|].
    intros w'. rewrite heap_set_heap. destruct (decide (w = w')) as [<-|Hne].
    + rewrite lookup_insert_eq, H. apply same_kind_activated, Hr.
    + rewrite lookup_insert_ne by exact Hne. apply (sweep_morph st Hwf).
  - destruct (deliver_focusOut_run w st Hwf) as [->| ->]; [exact Hwf|].
    eapply morph_wf; [exact Hwf | apply sweep_morph, Hwf].
  - unfold deliver_mousePress, get_mousePressEvent. rewrite gets_bind_run.
    apply call_handler_effect, Hwf.
  - destruct (pointer_run w true st) as [->|(o & i & H & Hi & ->)]; [exact Hwf|].
    eapply morph_wf; [exact Hwf|]. split; [reflexivity|]. split; [reflexivity|].
    intros w'. rewrite heap_set_heap. destruct (decide (w = w')) as [<-|Hne].
    + rewrite lookup_insert_eq, H. split.
      * unfold ready. cbn. rewrite Hi. reflexivity.
      * intros [Hb _]. congruence.
    + rewrite lookup_insert_ne by exact Hne. apply (morph_refl st).
  - destruct (pointer_run w false st) as [->|(o & i & H & Hi & ->)]; [exact Hwf|].
    eapply morph_wf; [exact Hwf|]. split; [reflexivity|]. split; [reflexivity|].
    intros w'. rewrite heap_set_heap. destruct (decide (w = w')) as [<-|Hne].
    + rewrite lookup_insert_eq, H. split.
      * unfold ready. cbn. rewrite Hi. reflexivity.
      * intros [Hb _]. congruence.
    + rewrite lookup_insert_ne by exact Hne. apply (morph_refl st).
  - exact Hwf.
Qed.

Lemma run_wf (st : World) (l : list action) : wf st → wf (run st l).
Proof.
  revert st. induction l as [|a l IH]; intros st Hwf; [exact Hwf|].
  apply IH, step_wf, Hwf.
Qed.






(** Every world that the program reaches is well-formed. *)
Lemma reachable_wf (trace : list action) : wf (run World_new trace).
Proof. apply run_wf, wf_World_new. Qed.

End Events.

(** ** The patched mouse-press handlers *)

Lemma patched_World_new : patched World_new.
Proof.
  intros tw. split.
  - intros H. destruct (not_elem_of_nil _ H).
  - intros _. apply lookup_empty.
Qed.

Lemma run_constructions_patched (cs : list (list nat * call)) (st : World) :
  wf st → patched st → patched (run st (constructions cs)).
Proof.
  revert st. induction cs as [|[tl c] cs IH]; intros st Hwf Hp; [exact Hp|].
  cbn [constructions flat_map app run fold_left fst snd].
  apply IH.
  - unfold step at 1. cbn [perform]. rewrite bind_run.
    destruct (construct_effect c (step st (TopLevel tl)) Hwf) as (H & _ & _).
    destruct (construct c (step st (TopLevel tl))) as [[n|e] st']; exact H.
  - unfold step at 1. cbn [perform]. rewrite bind_run.
    destruct (construct_effect c (step st (TopLevel tl)) Hwf) as (_ & _ & H).
    specialize (H Hp).
    destruct (construct c (step st (TopLevel tl))) as [[n|e] st']; exact H.
Qed.

(** C8. After any sequence of constructions, whatever the top-level
    widgets at each of them, the handler of a top-level widget is wrapped
    at most once: it is the original handler of that widget if the widget
    is not in [_top_widgets_modified], and otherwise a replacement that
    wraps that original handler directly.  A call of such a replacement
    runs the original handler on the event and then the sweep. *)
Theorem mousePressEvent_replaced_once (cs : list (list nat * call)) (tw : nat) :
  (wraps (handler_of (run World_new (constructions cs)) tw) ≤ 1)%nat
  ∧ (tw ∉ _top_widgets_modified (run World_new (constructions cs)) ↔
     handler_of (run World_new (constructions cs)) tw = OriginalMPE tw)
  ∧ (tw ∈ _top_widgets_modified (run World_new (constructions cs)) ↔
     ∃ self, handler_of (run World_new (constructions cs)) tw
             = PartialMPE self tw (OriginalMPE tw))
  ∧ ∀ self event st,
      call_handler (PartialMPE self tw (OriginalMPE tw)) event st
      = (class_mousePressEvent tw event ≫= λ _, QClickEdit__freezeInputPrecheck self) st.
Proof.
  assert (Hp := run_constructions_patched cs World_new wf_World_new patched_World_new).
  set (st := run World_new (constructions cs)) in *.
  destruct (Hp tw) as [Hin Hout]. unfold handler_of.
  destruct (decide (tw ∈ _top_widgets_modified st)) as [Hd|Hd].
  - destruct (Hin Hd) as (self & E). rewrite E. cbn.
    split; [lia|]. split; [|split].
    + split; [contradiction | discriminate].
    + split; [eauto | auto].
    + reflexivity.
  - rewrite (Hout Hd). cbn.
    split; [lia|]. split; [|split].
    + split; auto.
    + split; [contradiction | intros (self & [=])].
    + reflexivity.
Qed.

(** * More properties of the public interface *)

(** ** Tools *)

Lemma live_ready (c : class) (o : Obj) : live c o = true → ready o = true.
Proof. unfold live. intros [[H _]%andb_prop _]%andb_prop. exact H. Qed.

(** The observations at [w] of a world whose heap has just been
    written at [w]. *)
Ltac observe :=
  unfold label_text, input_control, spin_at, line_at, time_at, combo_at, suffix_at,
    display_format_at, prefix_label_at, input_visible, label_visible, under_mouse,
    input_time, class_at, live_at;
  rewrite ?heap_set_heap, ?lookup_insert_eq;
  cbn [mbind option_bind fmap option_fmap option_map
       cls widget_ _current_value _display_format suffix prefix_label
       input_widget text set_widget_ set_current_value set_display_format
       set_suffix set_prefix_label set_input_widget set_text
       in_control in_visible in_underMouse in_connected b_text b_visible].

(** From [live_at c st w], the object at [w], field by field, and the
    world as a heap written at [w]. *)
Ltac open_live H :=
  match type of H with
  | live_at ?c ?st ?w = true =>
      let o := fresh "o" in
      let Hh := fresh "Hh" in
      unfold live_at in H;
      destruct (heap st !! w) as [o|] eqn:Hh; [|discriminate H];
      unfold spin_at, line_at, time_at, combo_at, input_time in *;
      unfold label_text, input_control, suffix_at, display_format_at, prefix_label_at,
        input_visible, label_visible, under_mouse, class_at, label_synced in *;
      rewrite ?Hh in *;
      rewrite (world_ins _ _ _ Hh);
      rewrite ?heap_set_heap, ?lookup_insert_eq;
      generalize dependent (heap st); intros ? _;
      destruct o as [[] ? ? ? [?|] ? [[[?|?|?|?] ? ? [|]]|] [[? ?]|]];
      try discriminate H;
      unfold live, ready in H;
      cbn [mbind option_bind fmap option_fmap option_map
           cls widget_ _current_value _display_format suffix prefix_label
           input_widget text in_control in_visible in_underMouse in_connected
           b_text b_visible class_control andb] in *;
      rewrite ?andb_true_r, ?andb_false_r in H;
      try discriminate H
  end.

(** Case analysis on the next test of the computation, comparisons
    first. *)
Ltac mcase_atom :=
  match goal with
  | |- context [Z.eqb ?a ?b] => destruct (Z.eqb a b) eqn:?
  | |- context [String.eqb ?a ?b] => destruct (String.eqb a b) eqn:?
  | |- context [if ?b then _ else _] => destruct b eqn:?
  end.

Ltac mgo :=
  repeat first [progress mrun | progress cbn [truthy negb andb orb] | mcase_atom].

(** A suffix that has passed the check of the constructor. *)
Ltac valid_suffix H sfx :=
  destruct sfx as [?| |[]| | | | |]; try discriminate H.

(** ** QSpinBox.setValue *)

(** X7. [setValue(v)] on a spin box puts the value of the control at [v]
    clamped into the range of the control.  When that changes the value,
    the label shows the new value with the suffix; when it does not, the
    label shows [v] itself with the suffix, whatever the control holds. *)
Theorem QSpinBox_setValue_clamps (w : nat) (v : pyval) (z : Z) (st : World)
    (sb : SpinBox) (sfx : pyval) :
  live_at QSpinBox st w = true →
  c_int v = Some z →
  spin_at st w = Some sb →
  suffix_at st w = Some sfx →
  ∃ st', setValue w v st = (Ok tt, st')
    ∧ spin_at st' w
      = Some (MkSpinBox (Z.max (sb_minimum sb) (Z.min (sb_maximum sb) z))
                        (sb_minimum sb) (sb_maximum sb))
    ∧ label_text st' w
      = Some (suffixed sfx
                (if Z.max (sb_minimum sb) (Z.min (sb_maximum sb) z) =? sb_value sb
                 then str v
                 else str (VInt (Z.max (sb_minimum sb) (Z.min (sb_maximum sb) z))))).
Proof.
  intros Hl Hv Hsb Hsfx. open_live Hl.
  injection Hsb as ->. injection Hsfx as ->.
  assert (Hc : as_c_int v = mret z).
  { unfold c_int in Hv. destruct v; try discriminate Hv; cbn in Hv |- *.
    - destruct (_ && _); [injection Hv as ->; reflexivity | discriminate Hv].
    - destruct b; injection Hv as <-; reflexivity. }
  unfold setValue, QSpinBox_setValue, SpinBox_call_setValue. rewrite Hc.
  autounfold with methods. unfold suffixed.
  cbn [SpinBox_setValue sb_value].
  valid_suffix Hl sfx; mgo; try discriminate;
    (eexists; split; [reflexivity|]); observe; split; reflexivity.
Qed.

(** The label of [w] shows the value of its control, the heap having
    just been written at [w]. *)
Ltac synced :=
  unfold label_synced; eexists;
  split; [rewrite heap_set_heap; apply lookup_insert_eq|];
  cbn; split; [eexists; reflexivity | reflexivity].

(** ** QLineEdit.setValue *)


(** ** QTimeEdit.setValue and setDisplayFormat *)

(** X9. [setValue(t)] on a time edit, for a [QTime] [t]: the control
    takes [t] if it is valid and keeps its time otherwise.  The label shows
    [t] in the display format of the widget when the time of the control
    has changed, and in the format 'h:mm:ss a' when it has not. *)
Theorem QTimeEdit_setValue_label_format (w : nat) (t : QTime) (st : World)
    (te : TimeEdit) (f : string) :
  live_at QTimeEdit st w = true →
  time_at st w = Some te →
  display_format_at st w = Some f →
  ∃ st', setValue w (VQTime t) st = (Ok tt, st')
    ∧ time_at st' w
      = Some (MkTimeEdit (if QTime_isValid t then t else te_time te) (te_displayFormat te))
    ∧ label_text st' w
      = Some (if QTime_isValid t && negb (mds t =? mds (te_time te))
              then QTime_toString t f
              else QTime_toString t "h:mm:ss a").
Proof.
  intros Hl Hte Hf. open_live Hl.
  injection Hte as ->. cbn in Hf. subst.
  unfold setValue. mrun. autounfold with methods. unfold TimeEdit_setTime.
  destruct te as [t0 f0].
  destruct (QTime_isValid t) eqn:Hv; cbn [te_time te_displayFormat andb];
    rewrite ?Z.eqb_refl;
    mgo; cbn [te_time te_displayFormat] in *; rewrite ?Z.eqb_refl in *;
    try congruence;
    (eexists; split; [reflexivity|]); observe; split; reflexivity.
Qed.


(** ** QComboBox: setValue, setIndex, addItem *)






#[local] Hint Unfold
  ComboBox_call_removeItem QComboBox_removeIndex QComboBox_removeItem : methods.

(** ** QComboBox: removeIndex and removeItem *)


Lemma nth_delete_after (l : list string) (i k : nat) :
  (k < i)%nat → nth k (delete i l) "" = nth k l "".
Proof.
  revert i k. induction l as [|a l IH]; intros i k H.
  - destruct i, k; reflexivity.
  - destruct i as [|i]; [lia|]. destruct k as [|k]; [reflexivity|]. cbn. apply IH. lia.
Qed.

Lemma nth_delete_before (l : list string) (i k : nat) :
  (i ≤ k)%nat → nth k (delete i l) "" = nth (S k) l "".
Proof.
  revert i k. induction l as [|a l IH]; intros i k H.
  - destruct i, k; reflexivity.
  - destruct i as [|i]; [reflexivity|]. destruct k as [|k]; [lia|]. cbn. apply IH. lia.
Qed.

(** X16. [removeIndex(i)] for the index of an item other than the
    current one takes that item out of the list and keeps the current
    item: [getValue()] gives what it gave before, and the label goes on
    showing the current item if it did. *)
Theorem QComboBox_removeIndex_keeps_current (w : nat) (i : Z) (st : World) (cb : ComboBox) :
  live_at QComboBox st w = true →
  combo_at st w = Some cb →
  ComboBox_ok cb = true →
  0 ≤ i < Z.of_nat (length (cb_items cb)) →
  i ≠ cb_currentIndex cb →
  label_synced st w →
  ∃ st', QComboBox_removeIndex w i st = (Ok tt, st')
    ∧ cb_items <$> combo_at st' w = Some (delete (Z.to_nat i) (cb_items cb))
    ∧ getValue w st' = (Ok (VStr (ComboBox_currentText cb)), st')
    ∧ label_synced st' w.
Proof.
  intros Hl Hcb Hok Hi Hne (o' & Ho' & _ & Hsyn). open_live Hl.
  injection Hcb as ->. injection Ho' as <-. cbn in Hsyn.
  autounfold with methods. mrun. unfold ComboBox_removeItem.
  replace ((0 <=? i) && (i <? Z.of_nat (length (cb_items cb)))) with true
    by (symmetry; apply andb_true_intro; split; [apply Z.leb_le | apply Z.ltb_lt]; lia).
  unfold ComboBox_ok in Hok. apply andb_prop in Hok as [Hlo Hhi].
  apply Z.leb_le in Hlo. apply Z.ltb_lt in Hhi.
  destruct cb as [items cur]. cbn [cb_items cb_currentIndex] in *.
  replace (i =? cur) with false by (symmetry; apply Z.eqb_neq; exact Hne).
  destruct (i <? cur) eqn:Hlt; cbn [fst snd].
  - apply Z.ltb_lt in Hlt.
    assert (Hcur : ComboBox_currentText (MkComboBox (delete (Z.to_nat i) items) (cur - 1))
                   = ComboBox_currentText (MkComboBox items cur)).
    { unfold ComboBox_currentText. cbn [cb_items cb_currentIndex].
      replace (0 <=? cur - 1) with true by (symmetry; apply Z.leb_le; lia).
      replace (0 <=? cur) with true by (symmetry; apply Z.leb_le; lia).
      rewrite nth_delete_before by lia. f_equal. lia. }
    mgo. eexists. split; [reflexivity|]. observe. split; [reflexivity|].
    unfold getValue. mgo. rewrite Hcur. split; [reflexivity|].
    eexists. split; [reflexivity|]. cbn.
    split; [eexists; reflexivity|]. rewrite Hcur. reflexivity.
  - apply Z.ltb_ge in Hlt.
    assert (Hcur : ComboBox_currentText (MkComboBox (delete (Z.to_nat i) items) cur)
                   = ComboBox_currentText (MkComboBox items cur)).
    { unfold ComboBox_currentText. cbn [cb_items cb_currentIndex].
      destruct (0 <=? cur) eqn:H0; [|reflexivity]. apply Z.leb_le in H0.
      apply nth_delete_after. lia. }
    mgo. eexists. split; [reflexivity|]. observe. split; [reflexivity|].
    unfold getValue. mgo. rewrite Hcur. split; [reflexivity|].
    eexists. split; [reflexivity|]. cbn.
    split; [eexists; reflexivity|]. rewrite Hcur. exact Hsyn.
Qed.

(** ** getValue, and the errors of QSpinBox.setValue *)

(** X17. On a constructed widget [getValue()] returns, a value of the
    type of its class (an int for QSpinBox, a str for QLineEdit and
    QComboBox, a [QTime] for QTimeEdit), and leaves the world as it is. *)
Theorem getValue_returns_typed (w : nat) (c : class) (st : World) :
  widget_ready st w = true →
  class_at st w = Some c →
  ∃ v, getValue w st = (Ok v, st) ∧ returned_by c v = true.
Proof.
  unfold widget_ready, class_at. intros Hr Hc.
  destruct (heap st !! w) as [o|] eqn:Hh; [|discriminate Hr].
  injection Hc as <-. rewrite (world_ins _ _ _ Hh).
  destruct o as [[] ? ? ? [?|] ? [[[?|?|?|?] ? ? ?]|] [[? ?]|]]; try discriminate Hr;
    unfold getValue; autounfold with methods; mgo;
    (eexists; split; reflexivity).
Qed.


(** ** What the constructors build *)














(** ** Which top-level widgets a construction patches *)

Lemma leaves_top_widgets_bind {A B} (m : M A) (f : A → M B) :
  leaves_top_widgets m → (∀ a, leaves_top_widgets (f a)) → leaves_top_widgets (m ≫= f).
Proof.
  intros Hm Hf st. rewrite bind_run. specialize (Hm st).
  destruct (m st) as [[a|e] st1]; cbn [snd] in *; [|exact Hm].
  destruct (Hf a st1) as [H1 H2]. destruct Hm as [H3 H4]. split; congruence.
Qed.

Lemma leaves_top_widgets_ret {A} (a : A) : leaves_top_widgets (mret a).
Proof. intros st. split; reflexivity. Qed.

Lemma leaves_top_widgets_raise {A} (e : exn) : leaves_top_widgets (raise e : M A).
Proof. intros st. split; reflexivity. Qed.

Lemma leaves_top_widgets_gets {A} (p : World → A) : leaves_top_widgets (gets p).
Proof. intros st. split; reflexivity. Qed.

Lemma leaves_top_widgets_get_obj (self : nat) : leaves_top_widgets (get_obj self).
Proof. intros st. unfold get_obj. destruct (heap st !! self); split; reflexivity. Qed.

Lemma leaves_top_widgets_getattr {A} (name : string) (proj : Obj → option A) (self : nat) :
  leaves_top_widgets (getattr name proj self).
Proof.
  unfold getattr. apply leaves_top_widgets_bind; [apply leaves_top_widgets_get_obj|].
  intros o. destruct (proj o); [apply leaves_top_widgets_ret | apply leaves_top_widgets_raise].
Qed.

Lemma leaves_top_widgets_update_obj (self : nat) (f : Obj → Obj) :
  leaves_top_widgets (update_obj self f).
Proof.
  unfold update_obj. apply leaves_top_widgets_bind; [apply leaves_top_widgets_get_obj|].
  intros o st. split; reflexivity.
Qed.

Lemma leaves_top_widgets_register (self : nat) :
  leaves_top_widgets (modify (λ st, set_registry (_registry st ++ [self])%list st)).
Proof. intros st. split; reflexivity. Qed.

Lemma leaves_top_widgets_new (c : class) : leaves_top_widgets (new c).
Proof. intros st. split; reflexivity. Qed.

Ltac leaves_tac :=
  repeat first
    [ apply leaves_top_widgets_ret
    | apply leaves_top_widgets_raise
    | apply leaves_top_widgets_gets
    | apply leaves_top_widgets_get_obj
    | apply leaves_top_widgets_getattr
    | apply leaves_top_widgets_update_obj
    | apply leaves_top_widgets_register
    | apply leaves_top_widgets_new
    | apply leaves_top_widgets_bind; [|intro]
    | match goal with
      | |- leaves_top_widgets (if ?b then _ else _) => destruct b
      | |- leaves_top_widgets (match ?x with _ => _ end) => destruct x
      end
    | progress autounfold with methods ].

Lemma leaves_top_widgets_addItem_loop (self : nat) (l : list string) :
  leaves_top_widgets (addItem_loop self l).
Proof.
  induction l as [|x l IH]; cbn [addItem_loop]; [apply leaves_top_widgets_ret|].
  apply leaves_top_widgets_bind; [|intros _; exact IH]. leaves_tac.
Qed.

Lemma patches_top_widgets_after {A B} (m : M A) (f : A → M B) :
  leaves_top_widgets m → (∀ a, patches_top_widgets (f a)) → patches_top_widgets (m ≫= f).
Proof.
  intros Hm Hf st b st'. rewrite bind_run. specialize (Hm st).
  destruct (m st) as [[a|e] st1]; cbn [snd] in *; [|discriminate].
  intros H. destruct (Hf a st1 b st' H) as [H1 H2]. destruct Hm as [H3 H4].
  rewrite H3 in H1. rewrite H4 in H2. split; assumption.
Qed.

Lemma patches_top_widgets_before {A B} (m : M A) (f : A → M B) :
  patches_top_widgets m → (∀ a, leaves_top_widgets (f a)) → patches_top_widgets (m ≫= f).
Proof.
  intros Hm Hf st b st'. rewrite bind_run.
  destruct (m st) as [[a|e] st1] eqn:E; [|discriminate].
  intros H. destruct (Hm st a st1 E) as [H1 H2]. destruct (Hf a st1) as [_ H4].
  rewrite H in H4. cbn [snd] in H4. rewrite H4. split; assumption.
Qed.

Lemma patch_loop_covers (self : nat) (l : list nat) (st : World) :
  ∃ st', patch_loop self l st = (Ok tt, st')
         ∧ (∀ tw, tw ∈ l → tw ∈ _top_widgets_modified st')
         ∧ (∀ tw, tw ∈ _top_widgets_modified st → tw ∈ _top_widgets_modified st').
Proof.
  revert st. induction l as [|tw l IH]; intros st; cbn [patch_loop].
  - exists st. split; [reflexivity|]. split; [|auto].
    intros tw H. destruct (not_elem_of_nil _ H).
  - rewrite gets_bind_run. destruct (bool_decide (tw ∈ _top_widgets_modified st)) eqn:Hd.
    + apply bool_decide_eq_true in Hd. destruct (IH st) as (st' & E & Hl & Hm).
      exists st'. split; [exact E|]. split; [|exact Hm].
      intros tw' [->|H]%elem_of_cons; [apply Hm, Hd | apply Hl, H].
    + rewrite modify_bind_run. unfold get_mousePressEvent.
      rewrite gets_bind_run, modify_bind_run.
      match goal with |- context [patch_loop self l ?s] => destruct (IH s) as (st' & E & Hl & Hm) end.
      exists st'. split; [exact E|]. cbn in Hm. split.
      * intros tw' [->|H]%elem_of_cons; [|apply Hl, H].
        apply Hm, elem_of_app. right. apply list_elem_of_here.
      * intros tw' H. apply Hm, elem_of_app. left. exact H.
Qed.

Lemma patches_top_widgets_loop (self : nat) :
  patches_top_widgets (top_widgets ← gets topLevelWidgets; patch_loop self top_widgets).
Proof.
  intros st a st'. rewrite gets_bind_run.
  destruct (patch_loop_covers self (topLevelWidgets st) st) as (st1 & E & Hl & Hm).
  rewrite E. intros [= _ <-]. split; assumption.
Qed.

Lemma patches_top_widgets_init (self : nat) (v p s : pyval) :
  patches_top_widgets (QClickEdit___init__ self v p s).
Proof.
  unfold QClickEdit___init__.
  do 8 (apply patches_top_widgets_after; [leaves_tac | intros _]).
  apply patches_top_widgets_loop.
Qed.

(** X6. A construction that returns has patched every top-level widget
    of the application: each is in [_top_widgets_modified] afterwards,
    together with the ones that were there before. *)
Theorem construction_patches_top_widgets (c : call) (st st' : World) (self : nat) :
  construct c st = (Ok self, st') →
  (∀ tw, tw ∈ topLevelWidgets st → tw ∈ _top_widgets_modified st')
  ∧ (∀ tw, tw ∈ _top_widgets_modified st → tw ∈ _top_widgets_modified st').
Proof.
  revert st self st'. change (patches_top_widgets (construct c)).
  unfold construct. apply patches_top_widgets_after; [apply leaves_top_widgets_new|].
  intros n. apply patches_top_widgets_before; [|intros _; apply leaves_top_widgets_ret].
  destruct c as [v p s|v p s|v p f|items]; cbn [__init__].
  - unfold QSpinBox___init__.
    apply patches_top_widgets_after; [leaves_tac | intros _; apply patches_top_widgets_init].
  - unfold QLineEdit___init__.
    do 2 (apply patches_top_widgets_after; [leaves_tac | intros _]).
    apply patches_top_widgets_init.
  - unfold QTimeEdit___init__.
    do 4 (apply patches_top_widgets_after; [leaves_tac | intros ?]).
    apply patches_top_widgets_init.
  - unfold QComboBox___init__.
    do 3 (apply patches_top_widgets_after; [leaves_tac | intros ?]).
    apply patches_top_widgets_before; [apply patches_top_widgets_init|].
    intros _. apply leaves_top_widgets_addItem_loop.
Qed.

(** ** What a call of a public method writes *)

Lemma writes_self_read {A} (self : nat) (m : M A) :
  (∀ st, snd (m st) = st) → writes_self self m.
Proof.
  intros H st. exists (heap st). rewrite H, set_heap_id. auto.
Qed.

Lemma writes_self_bind {A B} (self : nat) (m : M A) (f : A → M B) :
  writes_self self m → (∀ a, writes_self self (f a)) → writes_self self (m ≫= f).
Proof.
  intros Hm Hf st. rewrite bind_run. destruct (Hm st) as (h1 & E1 & Ho1 & Hs1).
  destruct (m st) as [[a|e] st1]; cbn [snd] in *; [|exists h1; auto].
  destruct (Hf a st1) as (h2 & E2 & Ho2 & Hs2). exists h2. subst st1.
  rewrite heap_set_heap in Ho2, Hs2. rewrite set_heap_set_heap in E2.
  split; [exact E2|]. split; [|congruence].
  intros w Hw. rewrite (Ho2 w Hw). apply Ho1, Hw.
Qed.

Lemma writes_self_ret {A} (self : nat) (a : A) : writes_self self (mret a).
Proof. apply writes_self_read. reflexivity. Qed.

Lemma writes_self_raise {A} (self : nat) (e : exn) : writes_self self (raise e : M A).
Proof. apply writes_self_read. reflexivity. Qed.

Lemma writes_self_get_obj (self n : nat) : writes_self self (get_obj n).
Proof.
  apply writes_self_read. intros st. unfold get_obj. destruct (heap st !! n); reflexivity.
Qed.

Lemma writes_self_getattr {A} (self n : nat) (name : string) (proj : Obj → option A) :
  writes_self self (getattr name proj n).
Proof.
  unfold getattr. apply writes_self_bind; [apply writes_self_get_obj|].
  intros o. destruct (proj o); [apply writes_self_ret | apply writes_self_raise].
Qed.

(** A write on [self] that keeps what is shown. *)
Lemma writes_self_update_obj (self : nat) (f : Obj → Obj) :
  (∀ o, shown (f o) = shown o) → writes_self self (update_obj self f).
Proof.
  intros Hf st. destruct (heap st !! self) as [o|] eqn:Ho.
  - rewrite (update_obj_run _ _ _ _ Ho). cbn [snd]. eexists. split; [reflexivity|]. split.
    + intros w Hw. apply lookup_insert_ne. congruence.
    + rewrite lookup_insert_eq, ?Ho. cbn. f_equal. apply Hf.
  - exists (heap st). unfold update_obj, get_obj. rewrite bind_run, Ho. cbn [snd].
    rewrite set_heap_id, ?Ho. auto.
Qed.

Lemma writes_self_text_setText (self : nat) (s : string) :
  writes_self self (text_setText self s).
Proof.
  intros st. unfold text_setText. rewrite bind_run.
  destruct (heap st !! self) as [o|] eqn:Ho.
  - rewrite (getattr_run _ _ _ _ _ Ho). destruct (text o) as [b|] eqn:Hb.
    + rewrite (update_obj_run _ _ _ _ Ho). cbn [snd]. eexists. split; [reflexivity|]. split.
      * intros w Hw. apply lookup_insert_ne. congruence.
      * rewrite lookup_insert_eq, ?Ho. cbn. unfold shown. destruct o. cbn in *. subst.
        reflexivity.
    + exists (heap st). cbn [snd]. rewrite set_heap_id, ?Ho. auto.
  - exists (heap st). unfold getattr, get_obj. rewrite bind_run, Ho. cbn [snd].
    rewrite set_heap_id, ?Ho. auto.
Qed.

Lemma writes_self_set_control (self : nat) (c : control) :
  writes_self self (set_control self c).
Proof.
  intros st. unfold set_control. rewrite bind_run.
  destruct (heap st !! self) as [o|] eqn:Ho.
  - rewrite (getattr_run _ _ _ _ _ Ho). destruct (input_widget o) as [i|] eqn:Hi.
    + rewrite (update_obj_run _ _ _ _ Ho). cbn [snd]. eexists. split; [reflexivity|]. split.
      * intros w Hw. apply lookup_insert_ne. congruence.
      * rewrite lookup_insert_eq, ?Ho. cbn. unfold shown. destruct o. cbn in *. subst.
        reflexivity.
    + exists (heap st). cbn [snd]. rewrite set_heap_id, ?Ho. auto.
  - exists (heap st). unfold getattr, get_obj. rewrite bind_run, Ho. cbn [snd].
    rewrite set_heap_id, ?Ho. auto.
Qed.

Lemma writes_self_emit (self : nat) (changed : bool) (slot : M unit) :
  writes_self self slot → writes_self self (emit self changed slot).
Proof.
  intros Hs. unfold emit. apply writes_self_bind; [apply writes_self_getattr|].
  intros i. destruct (changed && in_connected i); [exact Hs | apply writes_self_ret].
Qed.

Create HintDb public.

#[local] Hint Unfold
  get_spin get_line get_time get_combo as_c_int QClickEdit__addSuffix
  QSpinBox__updateCurrentValue QSpinBox_getValue SpinBox_call_setValue QSpinBox_setValue
  QLineEdit__updateCurrentValue QLineEdit_getValue LineEdit_call_setText QLineEdit_setValue
  call_toString QTimeEdit__updateCurrentValue TimeEdit_call_setDisplayFormat
  QTimeEdit__inputCheck QTimeEdit_getValue TimeEdit_call_setTime QTimeEdit_setValue
  QTimeEdit_setDisplayFormat
  QComboBox__updateCurrentValue QComboBox_getValue ComboBox_call_setCurrentIndex
  ComboBox_call_addItem ComboBox_call_removeItem
  QComboBox_setValue QComboBox_setIndex QComboBox_getCurrentIndex QComboBox_addItem
  QComboBox_removeIndex QComboBox_removeItem getValue setValue invoke : public.

Ltac writes_self_tac :=
  repeat first
    [ apply writes_self_ret
    | apply writes_self_raise
    | apply writes_self_get_obj
    | apply writes_self_getattr
    | apply writes_self_text_setText
    | apply writes_self_set_control
    | apply writes_self_emit
    | apply writes_self_update_obj; intros []; reflexivity
    | apply writes_self_bind; [|intro]
    | match goal with
      | |- writes_self _ (if ?b then _ else _) => destruct b
      | |- writes_self _ (match ?x with _ => _ end) => destruct x
      end
    | progress autounfold with public ].

(** X19. A call of a public method on [w], whether it returns or
    raises, writes the object [w] only: the registry, the handlers and
    every other object are as before, and the input widget and the label of
    [w] are each as visible as they were. *)
Theorem public_call_writes_self (w : nat) (c : public_call) (st : World) :
  ∃ h, snd (invoke w c st) = set_heap h st
       ∧ (∀ w', w' ≠ w → h !! w' = heap st !! w')
       ∧ shown <$> h !! w = shown <$> heap st !! w.
Proof.
  revert st. change (writes_self w (invoke w c)).
  destruct c; writes_self_tac.
Qed.

(** ** The registry and the sweep in the worlds the program reaches *)

Lemma sweep_sweep (st : World) : sweep (sweep st) = sweep st.
Proof.
  unfold sweep. rewrite heap_set_heap, registry_set_heap, set_heap_set_heap. f_equal.
  apply map_eq. intros w. rewrite !sweep_heap_lookup.
  destruct (decide (w ∈ _registry st)); [|reflexivity].
  destruct (heap st !! w); cbn; [rewrite collapse_idemp|]; reflexivity.
Qed.

Section Reachable.

Hypothesis client_handlers : ∀ tw ev st, snd (class_mousePressEvent tw ev st) = st.

Lemma call_handler_registry (h : handler) (ev : QEvent) (st : World) :
  wf st → _registry (snd (call_handler h ev st)) = _registry st.
Proof.
  revert st. induction h as [tw|self parent h IH]; intros st Hwf; cbn [call_handler].
  - rewrite client_handlers. reflexivity.
  - unfold QClickEdit__topWidgetMousePressEvent. rewrite bind_run.
    specialize (IH st Hwf).
    destruct (call_handler_effect client_handlers h ev st Hwf) as [Hwf1 _].
    destruct (call_handler h ev st) as [[[]|e] st1]; cbn [snd] in *; [|exact IH].
    rewrite (freezeInputPrecheck_run _ _ Hwf1). cbn [snd]. exact IH.
Qed.

(** An action leaves the registry as it is, or appends the identity of
    the object it has allocated. *)
Lemma step_registry (st : World) (a : action) :
  wf st →
  _registry (step st a) = _registry st
  ∨ _registry (step st a) = (_registry st ++ [next_id st])%list.
Proof.
  intros Hwf. unfold step. destruct a as [c|w|w|tw x y|w|w|l]; cbn [perform].
  - rewrite bind_run.
    destruct (construct_run c st) as (r & o & st' & E & _ & _ & _ & Hcases).
    rewrite E. destruct r as [n|e]; cbn [snd mret M_ret]; rewrite registry_set_heap;
      (destruct Hcases as [[Hr _]|[Hr _]]; [left | right]; exact Hr).
  - left. destruct (deliver_clicked_run w st Hwf) as [->|(o & H & Hr & ->)]; reflexivity.
  - left. destruct (deliver_focusOut_run w st Hwf) as [->| ->]; reflexivity.
  - left. unfold deliver_mousePress, get_mousePressEvent. rewrite gets_bind_run.
    apply call_handler_registry, Hwf.
  - left. destruct (pointer_run w true st) as [->|(o & i & H & Hi & ->)]; reflexivity.
  - left. destruct (pointer_run w false st) as [->|(o & i & H & Hi & ->)]; reflexivity.
  - left. reflexivity.
Qed.

Lemma run_registry_NoDup (st : World) (l : list action) :
  wf st → NoDup (_registry st) → NoDup (_registry (run st l)).
Proof.
  revert st. induction l as [|a l IH]; intros st Hwf Hnd; [exact Hnd|].
  cbn [run fold_left]. apply IH; [apply (step_wf client_handlers), Hwf|].
  destruct (step_registry st a Hwf) as [-> | ->]; [exact Hnd|].
  apply NoDup_app. split; [exact Hnd|]. split; [|apply NoDup_singleton].
  intros w Hin [->|H]%elem_of_cons; [|destruct (not_elem_of_nil _ H)].
  destruct (wf_registered _ _ Hwf Hin) as (o & Ho & _).
  destruct Hwf as (Hf & _). specialize (Hf _ _ Ho). lia.
Qed.

(** X20. From the start of the program, after any sequence of
    constructions, label activations, focus losses, mouse presses and
    pointer moves, no widget is registered twice: the sweep visits each
    registered widget once.  The handlers of the client are taken not to
    touch the widgets. *)
Theorem registry_has_no_duplicates (trace : list action) :
  NoDup (_registry (run World_new trace)).
Proof. apply run_registry_NoDup; [apply wf_World_new | apply NoDup_nil_2]. Qed.

(** X21. In every world that the program reaches the sweep returns,
    whichever widget runs it, and a second sweep changes nothing more. *)
Theorem sweep_returns_and_settles (trace : list action) (a b : nat) :
  fst (QClickEdit__freezeInputPrecheck a (run World_new trace)) = Ok tt
  ∧ (QClickEdit__freezeInputPrecheck a;; QClickEdit__freezeInputPrecheck b)
      (run World_new trace)
    = QClickEdit__freezeInputPrecheck a (run World_new trace).
Proof.
  assert (Hwf := reachable_wf client_handlers trace).
  generalize dependent (run World_new trace). intros st Hwf.
  rewrite bind_run, (freezeInputPrecheck_run a st Hwf). split; [reflexivity|].
  rewrite (freezeInputPrecheck_run b (sweep st)), sweep_sweep; [reflexivity|].
  eapply morph_wf; [exact Hwf | apply sweep_morph, Hwf].
Qed.

End Reachable.

(** ** The activation of a QTimeEdit *)


End QClickEdit_module.

(** * The properties on the scenarios *)

Local Abbreviation sample_run := (run sample_toString sample_mousePressEvent World_new).

Lemma sample_handlers_quiet (tw : nat) (ev : QEvent) (st : World) :
  snd (sample_mousePressEvent tw ev st) = st.
Proof. reflexivity. Qed.





(** C3 as worded fails: the input widget of the first line edit loses
    focus with the pointer over it, and the widget stays in input mode. *)
Lemma focus_loss_under_pointer :
  ¬ focus_loss_restores_label (sample_run first_under_pointer) 0.
Proof.
  intros H. destruct H as [H _]; [vm_compute; reflexivity|].
  vm_compute in H. discriminate H.
Qed.

Lemma focusOut_returns_to_label_witness :
  wf (sample_run first_in_input_mode)
  ∧ 0%nat ∈ _registry (sample_run first_in_input_mode)
  ∧ input_visible (sample_run first_in_input_mode) 0 = true
  ∧ under_mouse (sample_run first_in_input_mode) 0 = false
  ∧ ∃ st', deliver_focusOut 0 (sample_run first_in_input_mode) = (Ok tt, st')
      ∧ input_visible st' 0 = false ∧ label_visible st' 0 = true
      ∧ label_text st' 0 = label_text (sample_run first_in_input_mode) 0
      ∧ input_control st' 0 = input_control (sample_run first_in_input_mode) 0
      ∧ (label_synced sample_toString (sample_run first_in_input_mode) 0 →
         label_synced sample_toString st' 0).
Proof.
  assert (Hwf : wf (sample_run first_in_input_mode))
    by apply (reachable_wf sample_toString sample_mousePressEvent sample_handlers_quiet).
  assert (Hin : 0%nat ∈ _registry (sample_run first_in_input_mode))
    by (apply list_elem_of_In; vm_compute; tauto).
  assert (Hv : input_visible (sample_run first_in_input_mode) 0 = true)
    by (vm_compute; reflexivity).
  assert (Hu : under_mouse (sample_run first_in_input_mode) 0 = false)
    by (vm_compute; reflexivity).
  split; [exact Hwf|]. split; [exact Hin|]. split; [exact Hv|]. split; [exact Hu|].
  exact (focusOut_returns_to_label sample_toString 0 (sample_run first_in_input_mode)
           Hwf Hin Hv Hu).
Defined.



Lemma QComboBox_single_value_AttributeError_witness :
  (∀ l, VStr "solo" ≠ VList l)
  ∧ fst (construct sample_toString (NewComboBox (VStr "solo")) World_new)
    = Raise (AttributeError "object has no attribute '_current_value'")
  ∧ _registry (snd (construct sample_toString (NewComboBox (VStr "solo")) World_new))
    = _registry World_new.
Proof.
  split; [intros l; discriminate|].
  apply (QComboBox_single_value_AttributeError sample_toString (VStr "solo") World_new).
  intros l; discriminate.
Defined.

Lemma QTimeEdit_setValue_TypeError_atomic_witness :
  is_time_value (VStr "noon") = false
  ∧ QTimeEdit_setValue sample_toString 2 (VStr "noon") (sample_run one_of_each)
    = (Raise (TypeError msg_time), sample_run one_of_each)
  ∧ label_text (snd (QTimeEdit_setValue sample_toString 2 (VStr "noon")
                       (sample_run one_of_each))) 2
    = label_text (sample_run one_of_each) 2
  ∧ input_time (snd (QTimeEdit_setValue sample_toString 2 (VStr "noon")
                       (sample_run one_of_each))) 2
    = input_time (sample_run one_of_each) 2.
Proof.
  split; [reflexivity|].
  apply (QTimeEdit_setValue_TypeError_atomic sample_toString 2 (VStr "noon")
           (sample_run one_of_each)).
  reflexivity.
Defined.

(** The constructor of QTimeEdit does take [False] and a
    [datetime.time]: the widget holds midnight, and the converted time. *)
Example QTimeEdit_constructor_coerces :
  input_time (snd (construct sample_toString
                     (NewTimeEdit (VBool false) (VBool false) "h:mm:ss a") World_new)) 0
  = Some (QTime_hms 0 0 0 0)
  ∧ input_time (snd (construct sample_toString
                       (NewTimeEdit (VTime (PyTime 13 30 0 0)) (VBool false) "h:mm:ss a")
                       World_new)) 0
    = Some (QTime_hms 13 30 0 0).
Proof. split; vm_compute; reflexivity. Qed.

(** The widgets of [Examples.py]: what each label shows once
    constructed. *)
Example examples_py_labels :
  map (label_text
         (sample_run
            [Construct (NewSpinBox (VInt 23) (VStr "Temperature") (VStr "C"));
             Construct (NewTimeEdit (VQTime (QTime_hms 1 0 0 0)) (VStr "On Time") "h:mm:ss a");
             Construct (NewComboBox
                          (VList [VStr "asdf"; VInt 23; VInt 4; VBool false; VClass "list"]));
             Construct (NewLineEdit (VStr "Blorka") (VStr "Name") (VStr "Sr."))]))
      [0; 1; 2; 3]%nat
  = [Some "23 C"; Some "1:00:00"; Some "asdf"; Some "Blorka Sr."].
Proof. vm_compute. reflexivity. Qed.

(** ** The constructors *)





Lemma construction_patches_top_widgets_witness :
  construct sample_toString (NewLineEdit (VStr "Zonk") (VBool false) (VBool false))
            (sample_run line_edit_in_window)
  = (Ok 1%nat,
     snd (construct sample_toString (NewLineEdit (VStr "Zonk") (VBool false) (VBool false))
                    (sample_run line_edit_in_window)))
  ∧ (∀ tw, tw ∈ topLevelWidgets (sample_run line_edit_in_window) →
           tw ∈ _top_widgets_modified
                  (snd (construct sample_toString
                          (NewLineEdit (VStr "Zonk") (VBool false) (VBool false))
                          (sample_run line_edit_in_window))))
  ∧ (∀ tw, tw ∈ _top_widgets_modified (sample_run line_edit_in_window) →
           tw ∈ _top_widgets_modified
                  (snd (construct sample_toString
                          (NewLineEdit (VStr "Zonk") (VBool false) (VBool false))
                          (sample_run line_edit_in_window)))).
Proof.
  assert (E : construct sample_toString
                (NewLineEdit (VStr "Zonk") (VBool false) (VBool false))
                (sample_run line_edit_in_window)
              = (Ok 1%nat,
                 snd (construct sample_toString
                        (NewLineEdit (VStr "Zonk") (VBool false) (VBool false))
                        (sample_run line_edit_in_window))))
    by (vm_compute; reflexivity).
  split; [exact E|].
  exact (construction_patches_top_widgets sample_toString _ _ _ _ E).
Defined.

(** ** The public methods *)

Lemma QSpinBox_setValue_clamps_witness :
  live_at QSpinBox (sample_run one_of_each) 1 = true
  ∧ c_int (VInt 150) = Some 150
  ∧ spin_at (sample_run one_of_each) 1 = Some (MkSpinBox 23 0 99)
  ∧ suffix_at (sample_run one_of_each) 1 = Some (VStr "C")
  ∧ ∃ st', setValue sample_toString 1 (VInt 150) (sample_run one_of_each) = (Ok tt, st')
      ∧ spin_at st' 1 = Some (MkSpinBox 99 0 99)
      ∧ label_text st' 1 = Some "99 C".
Proof.
  assert (H1 : live_at QSpinBox (sample_run one_of_each) 1 = true)
    by (vm_compute; reflexivity).
  assert (H3 : spin_at (sample_run one_of_each) 1 = Some (MkSpinBox 23 0 99))
    by (vm_compute; reflexivity).
  assert (H4 : suffix_at (sample_run one_of_each) 1 = Some (VStr "C"))
    by (vm_compute; reflexivity).
  split; [exact H1|]. split; [reflexivity|]. split; [exact H3|]. split; [exact H4|].
  exact (QSpinBox_setValue_clamps sample_toString 1 (VInt 150) 150 (sample_run one_of_each)
           (MkSpinBox 23 0 99) (VStr "C") H1 eq_refl H3 H4).
Defined.




Lemma QTimeEdit_setValue_label_format_witness :
  live_at QTimeEdit (sample_run one_of_each) 2 = true
  ∧ time_at (sample_run one_of_each) 2 = Some (MkTimeEdit (QTime_hms 1 0 0 0) None)
  ∧ display_format_at (sample_run one_of_each) 2 = Some "h:mm:ss a"
  ∧ ∃ st', setValue sample_toString 2 (VQTime (QTime_hms 2 0 0 0)) (sample_run one_of_each)
           = (Ok tt, st')
      ∧ time_at st' 2 = Some (MkTimeEdit (QTime_hms 2 0 0 0) None)
      ∧ label_text st' 2 = Some (sample_toString (QTime_hms 2 0 0 0) "h:mm:ss a").
Proof.
  assert (H1 : live_at QTimeEdit (sample_run one_of_each) 2 = true)
    by (vm_compute; reflexivity).
  assert (H2 : time_at (sample_run one_of_each) 2
               = Some (MkTimeEdit (QTime_hms 1 0 0 0) None))
    by (vm_compute; reflexivity).
  assert (H3 : display_format_at (sample_run one_of_each) 2 = Some "h:mm:ss a")
    by (vm_compute; reflexivity).
  split; [exact H1|]. split; [exact H2|]. split; [exact H3|].
  exact (QTimeEdit_setValue_label_format sample_toString 2 (QTime_hms 2 0 0 0)
           (sample_run one_of_each) (MkTimeEdit (QTime_hms 1 0 0 0) None) "h:mm:ss a"
           H1 H2 H3).
Defined.


Lemma getValue_returns_typed_witness :
  widget_ready (sample_run one_of_each) 2 = true
  ∧ class_at (sample_run one_of_each) 2 = Some QTimeEdit
  ∧ ∃ v, getValue 2 (sample_run one_of_each) = (Ok v, sample_run one_of_each)
         ∧ returned_by QTimeEdit v = true.
Proof.
  assert (H1 : widget_ready (sample_run one_of_each) 2 = true) by (vm_compute; reflexivity).
  assert (H2 : class_at (sample_run one_of_each) 2 = Some QTimeEdit)
    by (vm_compute; reflexivity).
  split; [exact H1|]. split; [exact H2|].
  exact (getValue_returns_typed 2 QTimeEdit (sample_run one_of_each) H1 H2).
Defined.






Lemma combo_box_synced : label_synced sample_toString (sample_run three_items) 0.
Proof.
  exists (default (Obj_new QComboBox) (heap (sample_run three_items) !! 0%nat)).
  split; [vm_compute; reflexivity|].
  split; [vm_compute; eexists; reflexivity | vm_compute; reflexivity].
Qed.

Lemma QComboBox_removeIndex_keeps_current_witness :
  live_at QComboBox (sample_run three_items) 0 = true
  ∧ combo_at (sample_run three_items) 0 = Some (MkComboBox ["asdf"; "23"; "4"] 0)
  ∧ ComboBox_ok (MkComboBox ["asdf"; "23"; "4"] 0) = true
  ∧ 0 ≤ 1 < Z.of_nat (length ["asdf"; "23"; "4"])
  ∧ 1 ≠ 0
  ∧ label_synced sample_toString (sample_run three_items) 0
  ∧ ∃ st', QComboBox_removeIndex 0 1 (sample_run three_items) = (Ok tt, st')
      ∧ cb_items <$> combo_at st' 0 = Some ["asdf"; "4"]
      ∧ getValue 0 st' = (Ok (VStr "asdf"), st')
      ∧ label_synced sample_toString st' 0.
Proof.
  assert (H1 : live_at QComboBox (sample_run three_items) 0 = true)
    by (vm_compute; reflexivity).
  assert (H2 : combo_at (sample_run three_items) 0
               = Some (MkComboBox ["asdf"; "23"; "4"] 0))
    by (vm_compute; reflexivity).
  assert (H4 : 0 ≤ 1 < Z.of_nat (length ["asdf"; "23"; "4"])) by (cbn; lia).
  assert (H5 : 1 ≠ 0) by discriminate.
  split; [exact H1|]. split; [exact H2|]. split; [reflexivity|]. split; [exact H4|].
  split; [exact H5|]. split; [exact combo_box_synced|].
  exact (QComboBox_removeIndex_keeps_current sample_toString 0 1 (sample_run three_items)
           (MkComboBox ["asdf"; "23"; "4"] 0) H1 H2 eq_refl H4 H5 combo_box_synced).
Defined.

(** ** The registry and the sweep *)

Lemma registry_has_no_duplicates_witness :
  (∀ tw ev st, snd (sample_mousePressEvent tw ev st) = st)
  ∧ NoDup (_registry (sample_run labels_by_mouse)).
Proof.
  split; [exact sample_handlers_quiet|].
  exact (registry_has_no_duplicates sample_toString sample_mousePressEvent
           sample_handlers_quiet labels_by_mouse).
Defined.

Lemma sweep_returns_and_settles_witness :
  (∀ tw ev st, snd (sample_mousePressEvent tw ev st) = st)
  ∧ fst (QClickEdit__freezeInputPrecheck 0 (sample_run first_in_input_mode)) = Ok tt
  ∧ (QClickEdit__freezeInputPrecheck 0;; QClickEdit__freezeInputPrecheck 1)
      (sample_run first_in_input_mode)
    = QClickEdit__freezeInputPrecheck 0 (sample_run first_in_input_mode).
Proof.
  split; [exact sample_handlers_quiet|].
  exact (sweep_returns_and_settles sample_toString sample_mousePressEvent
           sample_handlers_quiet first_in_input_mode 0%nat 1%nat).
Defined.

